(** * httpclient: a functional-options wrapper around an HTTP request library

    Shallow embedding of the Go package [httpclient]: the client and its
    options (httpclient.go), the request and the metrics reporter
    (request.go), the [Metrics] interface (metrics.go), and the files that
    hold the Response, the decorating Transport and [requestID]; with the
    properties of the callback chain, the metrics alias, the reporter, the
    transport and the response wrapper.  The logger adapter is not modelled.

    Conventions.  A Go [string] is a Rocq [string] (a sequence of bytes);
    [int] and [time.Duration] are [Z]; a nil-able pointer or interface is an
    [option]; [map[string]T] is a [gmap string T]; a Go function that can
    panic returns an [Outcome]. *)

From Stdlib Require Import ZArith Ascii String List Lia DecimalString.
From stdpp Require Import base option gmap strings list.

Local Open Scope string_scope.
Local Open Scope list_scope.

(** ** Go standard library: strings, fmt, path, net/url

    These functions are not part of the repository; they are transcribed
    from the behaviour the Go standard library documents, at the arguments
    with which the package calls them. *)

Module GoStd.

(** [strings.Replace(s, old, new, -1)] for a one-byte [old] and [new]. *)
Fixpoint strings_Replace_byte (s : string) (old new : ascii) : string :=
  match s with
  | EmptyString => EmptyString
  | String c rest =>
      String (if Ascii.eqb c old then new else c)
             (strings_Replace_byte rest old new)
  end.

(** [strings.Join(elems, sep)]. *)
Fixpoint strings_Join (elems : list string) (sep : string) : string :=
  match elems with
  | [] => ""
  | [e] => e
  | e :: rest => e +:+ sep +:+ strings_Join rest sep
  end.

(** [strings.Split(s, sep)] for a one-byte separator. *)
Fixpoint strings_Split_byte (s : string) (sep : ascii) : list string :=
  match s with
  | EmptyString => [EmptyString]
  | String c rest =>
      if Ascii.eqb c sep then EmptyString :: strings_Split_byte rest sep
      else match strings_Split_byte rest sep with
           | [] => [String c EmptyString]
           | x :: xs => String c x :: xs
           end
  end.

(** [strings.TrimRight(s, "/")]. *)
Fixpoint strings_TrimRight_slash (s : string) : string :=
  match s with
  | EmptyString => EmptyString
  | String c rest =>
      match strings_TrimRight_slash rest with
      | EmptyString => if Ascii.eqb c "/" then EmptyString else String c EmptyString
      | rest' => String c rest'
      end
  end.

(** [fmt.Sprintf("%d", n)]. *)
Definition Sprintf_d (n : Z) : string := NilZero.string_of_int (Z.to_int n).

(** [fmt.Sprintf("%s.%s", a, b)]. *)
Definition Sprintf_s_dot_s (a b : string) : string := a +:+ "." +:+ b.

(** One step of [path.Clean] on the path element [elem]; [out] is the
    output built so far, as a stack of elements (last element first).
    Empty elements and "." are dropped; ".." removes the last real element
    when there is one, is kept in front of a relative path otherwise, and is
    dropped at the root. *)
Definition clean_step (rooted : bool) (out : list string) (elem : string)
  : list string :=
  if String.eqb elem "" || String.eqb elem "." then out
  else if String.eqb elem ".." then
    match out with
    | top :: below =>
        if String.eqb top ".." then (if rooted then out else ".." :: out)
        else below
    | [] => if rooted then out else [".."]
    end
  else elem :: out.

(** [path.Clean(p)]. *)
Definition path_Clean (p : string) : string :=
  match p with
  | EmptyString => "."
  | String c _ =>
      let rooted := Ascii.eqb c "/" in
      let out := fold_left (clean_step rooted) (strings_Split_byte p "/") [] in
      if rooted then "/" +:+ strings_Join (rev out) "/"
      else match out with
           | [] => "."
           | _ => strings_Join (rev out) "/"
           end
  end.

(** [path.Join(elem...)]: the elements from the first non-empty one on,
    joined by slashes and cleaned; the empty string when all are empty. *)
Fixpoint path_Join (elem : list string) : string :=
  match elem with
  | [] => ""
  | e :: rest =>
      if String.eqb e "" then path_Join rest
      else path_Clean (strings_Join (e :: rest) "/")
  end.

(** [strings.LastIndexByte(s, c)], counting from position [i]. *)
Fixpoint LastIndexByte_from (s : string) (c : ascii) (i : nat)
    (found : option nat) : option nat :=
  match s with
  | EmptyString => found
  | String a rest =>
      LastIndexByte_from rest c (S i) (if Ascii.eqb a c then Some i else found)
  end.

Definition strings_LastIndexByte (s : string) (c : ascii) : option nat :=
  LastIndexByte_from s c 0 None.

Definition is_digit (b : ascii) : bool :=
  (48 <=? nat_of_ascii b)%nat && (nat_of_ascii b <=? 57)%nat.

Fixpoint all_digits (s : string) : bool :=
  match s with
  | EmptyString => true
  | String b rest => is_digit b && all_digits rest
  end.

(** [validOptionalPort] of net/url: empty, or a colon followed by digits. *)
Definition validOptionalPort (port : string) : bool :=
  match port with
  | EmptyString => true
  | String c rest => Ascii.eqb c ":" && all_digits rest
  end.

Definition HasPrefix_byte (s : string) (c : ascii) : bool :=
  match s with
  | String a _ => Ascii.eqb a c
  | EmptyString => false
  end.

Fixpoint HasSuffix_byte (s : string) (c : ascii) : bool :=
  match s with
  | EmptyString => false
  | String a EmptyString => Ascii.eqb a c
  | String _ rest => HasSuffix_byte rest c
  end.

(** [net/url.URL]: the fields the package reads. *)
Record URL := mkURL { Scheme : string; Host : string; Path : string }.

(** [URL.Hostname()]: the host without a valid port and without the
    square brackets of an IPv6 literal. *)
Definition Hostname (u : URL) : string :=
  let host := Host u in
  let host :=
    match strings_LastIndexByte host ":" with
    | Some colon =>
        if validOptionalPort (substring colon (String.length host - colon) host)
        then substring 0 colon host
        else host
    | None => host
    end in
  if HasPrefix_byte host "[" && HasSuffix_byte host "]"
  then substring 1 (String.length host - 2) host
  else host.

(** ASCII case, as [net/textproto] uses it. *)
Definition is_lower (c : ascii) : bool :=
  (97 <=? nat_of_ascii c)%nat && (nat_of_ascii c <=? 122)%nat.

Definition is_upper (c : ascii) : bool :=
  (65 <=? nat_of_ascii c)%nat && (nat_of_ascii c <=? 90)%nat.

Definition to_upper (c : ascii) : ascii :=
  if is_lower c then ascii_of_nat (nat_of_ascii c - 32) else c.

Definition to_lower (c : ascii) : ascii :=
  if is_upper c then ascii_of_nat (nat_of_ascii c + 32) else c.

Fixpoint string_mem (c : ascii) (s : string) : bool :=
  match s with
  | EmptyString => false
  | String a rest => Ascii.eqb a c || string_mem c rest
  end.

(** [validHeaderFieldByte]: the token characters of RFC 7230. *)
Definition validHeaderFieldByte (c : ascii) : bool :=
  is_lower c || is_upper c || is_digit c || string_mem c "!#$%&'*+-.^_`|~".

Fixpoint all_validHeaderFieldByte (s : string) : bool :=
  match s with
  | EmptyString => true
  | String c rest => validHeaderFieldByte c && all_validHeaderFieldByte rest
  end.

(** The rewriting loop of [canonicalMIMEHeaderKey]: upper case at the start
    and after a hyphen, lower case elsewhere. *)
Fixpoint canonical_from (upper : bool) (s : string) : string :=
  match s with
  | EmptyString => EmptyString
  | String c rest =>
      let c' := if upper then to_upper c else to_lower c in
      String c' (canonical_from (Ascii.eqb c' "-") rest)
  end.

(** [textproto.CanonicalMIMEHeaderKey]: a key with a byte that is not a
    token character is returned unchanged. *)
Definition CanonicalMIMEHeaderKey (s : string) : string :=
  if all_validHeaderFieldByte s then canonical_from true s else s.

(** [http.Header], a [map[string][]string], with [Add], [Set] and [Get]. *)
Abbreviation http_Header := (gmap string (list string)).

Definition Header_Add (h : http_Header) (key value : string) : http_Header :=
  let k := CanonicalMIMEHeaderKey key in
  <[k := default [] (h !! k) ++ [value]]> h.

Definition Header_Set (h : http_Header) (key value : string) : http_Header :=
  <[CanonicalMIMEHeaderKey key := [value]]> h.

Definition Header_Get (h : http_Header) (key : string) : string :=
  match h !! CanonicalMIMEHeaderKey key with
  | Some (v :: _) => v
  | _ => ""
  end.

(** [http.Cookie]: the fields the package and its tests use. *)
Record http_Cookie := mkCookie {
  Name : string;
  Value : string;
  MaxAge : Z;
  Raw : string
}.

(** [time.Duration] is an int64 count of nanoseconds; a [time.Time] is
    taken as a reading of the clock in nanoseconds. *)
Definition Duration := Z.
Definition Time := Z.

Definition Millisecond : Duration := 1000000%Z.
Definition Second : Duration := 1000000000%Z.
Definition Minute : Duration := (60 * 1000000000)%Z.

Definition minDuration : Duration := (- 2 ^ 63)%Z.
Definition maxDuration : Duration := (2 ^ 63 - 1)%Z.

(** [t.Sub(u)]: the difference, saturated to the range of a Duration. *)
Definition Time_Sub (t u : Time) : Duration :=
  let d := (t - u)%Z in
  if (d <? minDuration)%Z then minDuration
  else if (maxDuration <? d)%Z then maxDuration
  else d.

(** The float64 that [d.Seconds()] returns, kept as the duration it was
    computed from. *)
Record seconds_float64 := Duration_Seconds { of_duration : Duration }.

End GoStd.

Import GoStd.

(** ** Errors

    A Go [error] is the circuit breaker's sentinel, a plain error, or an
    error wrapping another one. *)

Inductive error : Type :=
| ErrCircuitOpen
| errors_New (msg : string)
| errors_Wrap (msg : string) (cause : error).

#[global] Instance error_eq_dec : EqDecision error.
Proof. solve_decision. Defined.

(** [errors.Is(err, target)]: [err] or an error it wraps is [target]. *)
Fixpoint errors_Is (err target : error) : bool :=
  if decide (err = target) then true
  else match err with
       | errors_Wrap _ cause => errors_Is cause target
       | _ => false
       end.

(** ** Panics and the execution monad *)

Inductive Outcome (A : Type) : Type :=
| Returns (a : A)
| Panics (reason : string).

Arguments Returns {A} a.
Arguments Panics {A} reason.

(** The mutable state a call runs in: the [startTime] cell of the Request
    being executed, and everything outside the package (network, clock,
    the state of the resilience runners). *)
Record ExecState (World : Type) := mkExecState {
  startTime : Time;
  world : World
}.

Arguments mkExecState {World} startTime world.
Arguments startTime {World} e.
Arguments world {World} e.

Definition Exec (World A : Type) : Type :=
  ExecState World -> Outcome (A * ExecState World).

Definition ret {World A : Type} (a : A) : Exec World A :=
  fun st => Returns (a, st).

Definition bind {World A B : Type} (m : Exec World A) (k : A -> Exec World B)
  : Exec World B :=
  fun st =>
    match m st with
    | Returns (a, st') => k a st'
    | Panics reason => Panics reason
    end.

Definition panic {World A : Type} (reason : string) : Exec World A :=
  fun _ => Panics reason.

Declare Scope exec_scope.
Delimit Scope exec_scope with exec.
Notation "x <- m ;; k" := (bind m (fun x => k))
  (at level 100, m at next level, right associativity) : exec_scope.

(** ** Response *)

(** The back pointer [request] of the Go struct is left out: no property
    below reads it, and the cycle Response, Request, Callback, Response is a
    cycle of pointers. *)
Record Response := mkResponse {
  statusCode : Z;
  body : list Byte.byte;
  header : http_Header;
  cookies : list http_Cookie;
  responseTime : Duration
}.

Definition StatusCode (r : Response) : Z := statusCode r.
Definition Body (r : Response) : list Byte.byte := body r.
Definition Header (r : Response) : http_Header := header r.
Definition Cookies (r : Response) : list http_Cookie := cookies r.
Definition ResponseTime (r : Response) : Duration := responseTime r.

(** The loop of [Response.Cookie]: the first cookie with the given name. *)
Fixpoint Cookie_loop (cs : list http_Cookie) (name : string) : option http_Cookie :=
  match cs with
  | [] => None
  | c :: rest => if String.eqb (Name c) name then Some c else Cookie_loop rest name
  end.

Definition Cookie (r : Response) (name : string) : option http_Cookie :=
  Cookie_loop (cookies r) name.

(** What the accessors of a [resty.Response] return. *)
Record resty_Response := mkRestyResponse {
  resty_StatusCode : Z;
  resty_Header : http_Header;
  resty_Body : list Byte.byte;
  resty_Cookies : list http_Cookie
}.

(** ** Callbacks (httpclient.go) *)

Definition Result : Type := option Response * option error.

Definition Callback (World : Type) : Type :=
  Exec World Result -> Exec World Result.

Definition noopCallback {World : Type} : Callback World :=
  fun fn => fn.

(** ** Metrics (metrics.go)

    The interface has three methods, none of which returns a value: a sink
    is given by what each call does to the sink's own state. *)
Record Metrics (Sink : Type) := mkMetrics {
  IncrCounter : string -> Sink -> Sink;
  PushToSeries : string -> seconds_float64 -> Sink -> Sink;
  IncrCounterWithAttrs : string -> gmap string string -> Sink -> Sink
}.

Arguments mkMetrics {Sink} _ _ _.
Arguments IncrCounter {Sink} m name s.
Arguments PushToSeries {Sink} m name value s.
Arguments IncrCounterWithAttrs {Sink} m name attributes s.

(** ** Contexts and [requestID]

    A value of type [interface{}] is a dynamic type with a value; a nil
    interface is [None].  A context is the chain of its [WithValue] frames,
    innermost first. *)

Inductive any : Type :=
| any_string (s : string)
| any_int (n : Z)
| any_bool (b : bool)
| any_named (type_name : string) (underlying : any).

#[global] Instance any_eq_dec : EqDecision any.
Proof. solve_decision. Defined.

Definition Context : Type := list (any * option any).

Definition context_Background : Context := [].

Definition context_WithValue (parent : Context) (key : any) (val : option any)
  : Context :=
  (key, val) :: parent.

Fixpoint Context_Value (ctx : Context) (key : any) : option any :=
  match ctx with
  | [] => None
  | (k, v) :: parent => if decide (k = key) then v else Context_Value parent key
  end.

Definition contextRequestIDKey : string := "request.id".

(** The name of the dynamic type of a value, as a failed type assertion
    prints it. *)
Definition any_type_name (v : any) : string :=
  match v with
  | any_string _ => "string"
  | any_int _ => "int"
  | any_bool _ => "bool"
  | any_named type_name _ => type_name
  end.

(** [requestID] returns a request id present on the context; the type
    assertion [value.(string)] panics on a value that is not a string. *)
Definition requestID (ctx : Context) : Outcome string :=
  match Context_Value ctx (any_string contextRequestIDKey) with
  | None => Returns ""
  | Some (any_string s) => Returns s
  | Some v =>
      Panics ("interface conversion: interface {} is " +:+ any_type_name v
              +:+ ", not string")
  end.

(** ** The decorating Transport *)

(** [http.Request]: the [Header] is a map and may be nil ([None]). *)
Record http_Request := mkRequest {
  req_Method : string;
  req_URL : string;
  req_Header : option http_Header;
  req_Context : Context
}.

(** The values under the key [k] of a header map that may be nil: reading
    a nil map finds nothing. *)
Definition Header_values (h : option http_Header) (k : string)
  : option (list string) :=
  match h with
  | Some m => m !! k
  | None => None
  end.

Record http_Response := mkHttpResponse {
  resp_StatusCode : Z;
  resp_Header : http_Header;
  resp_Body : list Byte.byte
}.

(** The method [RoundTrip] of an [http.RoundTripper]. *)
Definition http_RoundTrip (World : Type) : Type :=
  http_Request -> World ->
  Outcome ((option http_Response * option error) * World).

(** [setRequestIDHeader]: [req.Header.Add] writes to the map, which panics
    when the map is nil. *)
Definition setRequestIDHeader (ctx : Context) (req : http_Request)
  : Outcome http_Request :=
  match requestID ctx with
  | Panics reason => Panics reason
  | Returns rID =>
      if String.eqb rID "" then Returns req
      else match req_Header req with
           | Some h =>
               Returns (mkRequest (req_Method req) (req_URL req)
                          (Some (Header_Add h "X-Request-ID" rID))
                          (req_Context req))
           | None => Panics "assignment to entry in nil map"
           end
  end.

(** [Transport.RoundTrip], for a Transport whose field [RoundTripper] has
    the method [inner]. *)
Definition RoundTrip {World : Type} (inner : http_RoundTrip World)
  : http_RoundTrip World :=
  fun req w =>
    match setRequestIDHeader (req_Context req) req with
    | Panics reason => Panics reason
    | Returns req' =>
        match inner req' w with
        | Panics reason => Panics reason
        | Returns ((resp, err), w') =>
            match err with
            | Some e => Returns ((None, Some e), w')
            | None => Returns ((resp, err), w')
            end
        end
    end.

(** ** Transports as configuration (net/http, oauth2) *)

Inductive ProxyFunc : Type :=
| Proxy_nil
| ProxyFromEnvironment
| ProxyURL (fixedURL : option URL).

Record net_Dialer := mkDialer {
  Dialer_Timeout : Duration;
  Dialer_KeepAlive : Duration;
  Dialer_DualStack : bool
}.

Record tls_Config := mkTLS {
  MinVersion : Z;
  ClientSessionCache_capacity : Z
}.

Definition VersionTLS12 : Z := 771.

Record http_Transport := mkTransport {
  Proxy : ProxyFunc;
  DialContext : option net_Dialer;
  MaxIdleConns : Z;
  MaxIdleConnsPerHost : Z;
  IdleConnTimeout : Duration;
  TLSHandshakeTimeout : Duration;
  TLSClientConfig : option tls_Config
}.

(** [new(http.Transport)]. *)
Definition new_http_Transport : http_Transport :=
  mkTransport Proxy_nil None 0 0 0%Z 0%Z None.

Definition with_Proxy (t : http_Transport) (p : ProxyFunc) : http_Transport :=
  mkTransport p (DialContext t) (MaxIdleConns t) (MaxIdleConnsPerHost t)
    (IdleConnTimeout t) (TLSHandshakeTimeout t) (TLSClientConfig t).

Record cc_Config := mkCCConfig {
  ClientID : string;
  ClientSecret : string;
  TokenURL : string;
  Scopes : list string
}.

(** The round trippers the options install: an [*http.Transport], the
    package's [*Transport] around another round tripper, and an
    [*oauth2.Transport] with its token source and base. *)
Inductive RoundTripper : Type :=
| rt_http (t : http_Transport)
| Transport (inner : RoundTripper)
| oauth2_Transport (Source : cc_Config) (Base : RoundTripper).

Definition NewDefaultTransport (transportTimeout : Duration) : RoundTripper :=
  Transport (rt_http
    (mkTransport ProxyFromEnvironment
       (Some (mkDialer transportTimeout (15 * Second)%Z true))
       100 100 (90 * Second)%Z (10 * Second)%Z
       (Some (mkTLS VersionTLS12 (-1))))).

(** ** The request library's client (resty v1)

    The library is outside the repository; its client is the record of the
    settings the options write, and each setter is the field update the
    library documents. *)

Record http_Client := mkHttpClient {
  hc_Transport : option RoundTripper;
  hc_Timeout : Duration
}.

Record resty_User := mkUser { Username : string; Password : string }.

Definition RetryConditionFunc : Type := resty_Response -> bool * option error.

Record resty_Client := mkRestyClient {
  HostURL : string;
  ClientHeader : http_Header;
  UserInfo : option resty_User;
  Token : string;
  ClientCookies : list http_Cookie;
  RetryCount : Z;
  RetryWaitTime : Duration;
  RetryMaxWaitTime : Duration;
  RetryConditions : list RetryConditionFunc;
  httpClient : http_Client;
  proxyURL : option URL
}.

Definition resty_NewWithClient (hc : http_Client) : resty_Client :=
  mkRestyClient "" ∅ None "" [] 0 (100 * Millisecond)%Z (2000 * Millisecond)%Z
    [] hc None.

(** [resty.New().SetLogger(logger).GetClient()]: a fresh [http.Client]. *)
Definition resty_New_GetClient : http_Client := mkHttpClient None 0%Z.

Definition with_httpClient (c : resty_Client) (hc : http_Client) : resty_Client :=
  mkRestyClient (HostURL c) (ClientHeader c) (UserInfo c) (Token c)
    (ClientCookies c) (RetryCount c) (RetryWaitTime c) (RetryMaxWaitTime c)
    (RetryConditions c) hc (proxyURL c).

Definition with_proxyURL (c : resty_Client) (u : option URL) : resty_Client :=
  mkRestyClient (HostURL c) (ClientHeader c) (UserInfo c) (Token c)
    (ClientCookies c) (RetryCount c) (RetryWaitTime c) (RetryMaxWaitTime c)
    (RetryConditions c) (httpClient c) u.

(** [SetTransport] ignores a nil round tripper. *)
Definition SetTransport (c : resty_Client) (transport : option RoundTripper)
  : resty_Client :=
  match transport with
  | Some t => with_httpClient c (mkHttpClient (Some t) (hc_Timeout (httpClient c)))
  | None => c
  end.

Definition SetTimeout (c : resty_Client) (timeout : Duration) : resty_Client :=
  with_httpClient c (mkHttpClient (hc_Transport (httpClient c)) timeout).

Definition SetHostURL (c : resty_Client) (url : string) : resty_Client :=
  mkRestyClient (strings_TrimRight_slash url) (ClientHeader c) (UserInfo c)
    (Token c) (ClientCookies c) (RetryCount c) (RetryWaitTime c)
    (RetryMaxWaitTime c) (RetryConditions c) (httpClient c) (proxyURL c).

Definition SetHeader (c : resty_Client) (header value : string) : resty_Client :=
  mkRestyClient (HostURL c) (Header_Set (ClientHeader c) header value)
    (UserInfo c) (Token c) (ClientCookies c) (RetryCount c) (RetryWaitTime c)
    (RetryMaxWaitTime c) (RetryConditions c) (httpClient c) (proxyURL c).

Definition SetBasicAuth (c : resty_Client) (username password : string)
  : resty_Client :=
  mkRestyClient (HostURL c) (ClientHeader c) (Some (mkUser username password))
    (Token c) (ClientCookies c) (RetryCount c) (RetryWaitTime c)
    (RetryMaxWaitTime c) (RetryConditions c) (httpClient c) (proxyURL c).

Definition SetAuthToken (c : resty_Client) (token : string) : resty_Client :=
  mkRestyClient (HostURL c) (ClientHeader c) (UserInfo c) token
    (ClientCookies c) (RetryCount c) (RetryWaitTime c) (RetryMaxWaitTime c)
    (RetryConditions c) (httpClient c) (proxyURL c).

Definition SetCookie (c : resty_Client) (hc : http_Cookie) : resty_Client :=
  mkRestyClient (HostURL c) (ClientHeader c) (UserInfo c) (Token c)
    (ClientCookies c ++ [hc]) (RetryCount c) (RetryWaitTime c)
    (RetryMaxWaitTime c) (RetryConditions c) (httpClient c) (proxyURL c).

Definition SetRetryCount (c : resty_Client) (count : Z) : resty_Client :=
  mkRestyClient (HostURL c) (ClientHeader c) (UserInfo c) (Token c)
    (ClientCookies c) count (RetryWaitTime c) (RetryMaxWaitTime c)
    (RetryConditions c) (httpClient c) (proxyURL c).

Definition SetRetryWaitTime (c : resty_Client) (waitTime : Duration)
  : resty_Client :=
  mkRestyClient (HostURL c) (ClientHeader c) (UserInfo c) (Token c)
    (ClientCookies c) (RetryCount c) waitTime (RetryMaxWaitTime c)
    (RetryConditions c) (httpClient c) (proxyURL c).

Definition SetRetryMaxWaitTime (c : resty_Client) (maxWaitTime : Duration)
  : resty_Client :=
  mkRestyClient (HostURL c) (ClientHeader c) (UserInfo c) (Token c)
    (ClientCookies c) (RetryCount c) (RetryWaitTime c) maxWaitTime
    (RetryConditions c) (httpClient c) (proxyURL c).

Definition AddRetryCondition (c : resty_Client) (condition : RetryConditionFunc)
  : resty_Client :=
  mkRestyClient (HostURL c) (ClientHeader c) (UserInfo c) (Token c)
    (ClientCookies c) (RetryCount c) (RetryWaitTime c) (RetryMaxWaitTime c)
    (RetryConditions c ++ [condition]) (httpClient c) (proxyURL c).

(** [getTransport]: installs a fresh [http.Transport] when the client has
    none, and gives the transport only when it is an [*http.Transport]. *)
Definition getTransport (c : resty_Client) : resty_Client * option http_Transport :=
  let c := match hc_Transport (httpClient c) with
           | None => SetTransport c (Some (rt_http new_http_Transport))
           | Some _ => c
           end in
  match hc_Transport (httpClient c) with
  | Some (rt_http t) => (c, Some t)
  | _ => (c, None)
  end.

Definition RemoveProxy (c : resty_Client) : resty_Client :=
  match getTransport c with
  | (c, None) => c
  | (c, Some t) =>
      SetTransport (with_proxyURL c None) (Some (rt_http (with_Proxy t Proxy_nil)))
  end.

(** The per-request part of the library: the client it was made from, its
    own headers and its context. *)
Record resty_Request := mkRestyRequest {
  rq_client : resty_Client;
  rq_Header : http_Header;
  rq_Context : option Context
}.

Definition resty_NewRequest (c : resty_Client) : resty_Request :=
  mkRestyRequest c ∅ None.

(** ** The resilience library's configurations *)

Record circuitbreaker_Config := mkBreakerConfig {
  ErrorPercentThresholdToOpen : Z;
  MinimumRequestToOpen : Z;
  SuccessfulRequiredOnHalfOpen : Z;
  WaitDurationInOpenState : Duration;
  MetricsSlidingWindowBucketQuantity : Z;
  MetricsBucketDuration : Duration
}.

Record retry_Config := mkRetryConfig {
  WaitBase : Duration;
  DisableBackoff : bool;
  Times : Z
}.

(** ** What the package takes from outside

    [url_Parse] is [net/url.Parse], which gives a URL or an error;
    [time_Now] reads the clock; [resty_Execute] is the library's
    [Request.Execute], the network call.  [circuitbreaker_Run] and
    [retry_Run] are the method [Run] of the runners that
    [circuitbreaker.New] and [retry.New] make: a runner calls the function
    it is given as often as its policy says and returns an error; the
    variables that function has captured are a state [S] that the runner
    hands on without looking at it. *)

Definition Runner (World : Type) : Type :=
  forall S : Type,
    (S -> World -> Outcome (option error * (S * World))) ->
    S -> World -> Outcome (option error * (S * World)).

Class Platform (World : Type) := {
  url_Parse : string -> URL + error;
  time_Now : World -> Time * World;
  resty_Execute :
    resty_Request -> string -> string -> World ->
    Outcome ((option resty_Response * option error) * World);
  circuitbreaker_Run : circuitbreaker_Config -> Runner World;
  retry_Run : retry_Config -> Runner World
}.

(** ** The client and the request (httpclient.go, request.go) *)

Record HTTPClient (World Sink : Type) := mkHTTPClient {
  resty : resty_Client;
  hostURL : option URL;
  metrics : option (Metrics Sink);
  callbackChain : option (Callback World)
}.

Arguments mkHTTPClient {World Sink} _ _ _ _.
Arguments resty {World Sink} h.
Arguments hostURL {World Sink} h.
Arguments metrics {World Sink} h.
Arguments callbackChain {World Sink} h.

Record Request (World Sink : Type) := mkRequestBuilder {
  alias : string;
  r_chainCallback : option (Callback World);
  r_hostURL : option URL;
  r_metrics : option (Metrics Sink);
  restyRequest : resty_Request
}.

Arguments mkRequestBuilder {World Sink} _ _ _ _ _.
Arguments alias {World Sink} r.
Arguments r_chainCallback {World Sink} r.
Arguments r_hostURL {World Sink} r.
Arguments r_metrics {World Sink} r.
Arguments restyRequest {World Sink} r.

(** The calls a sink can receive, and the sink that records them. *)
Inductive MetricCall : Type :=
| call_IncrCounter (name : string)
| call_PushToSeries (name : string) (value : seconds_float64)
| call_IncrCounterWithAttrs (name : string) (attributes : gmap string string).

Definition recorder : Metrics (list MetricCall) :=
  mkMetrics
    (fun name s => s ++ [call_IncrCounter name])
    (fun name value s => s ++ [call_PushToSeries name value])
    (fun name attributes s => s ++ [call_IncrCounterWithAttrs name attributes]).

Definition perform {Sink : Type} (m : Metrics Sink) (s : Sink) (c : MetricCall)
  : Sink :=
  match c with
  | call_IncrCounter name => IncrCounter m name s
  | call_PushToSeries name value => PushToSeries m name value s
  | call_IncrCounterWithAttrs name attributes =>
      IncrCounterWithAttrs m name attributes s
  end.

(** The parts of the configuration that the options write. *)
Inductive Setting : Type :=
| set_transport | set_timeout | set_header | set_basic_auth | set_token
| set_cookies | set_host_url | set_metrics | set_retries
| set_retry_conditions | set_callback_chain.

#[global] Instance Setting_eq_dec : EqDecision Setting.
Proof. solve_decision. Defined.

Definition Setting_eqb (a b : Setting) : bool := bool_decide (a = b).

Section Package.

Context {World Sink : Type} `{!Platform World}.

Local Open Scope exec_scope.

Definition Opt : Type := HTTPClient World Sink -> HTTPClient World Sink.

Definition with_resty (c : HTTPClient World Sink) (r : resty_Client)
  : HTTPClient World Sink :=
  mkHTTPClient r (hostURL c) (metrics c) (callbackChain c).

Definition with_callbackChain (c : HTTPClient World Sink)
    (chain : option (Callback World)) : HTTPClient World Sink :=
  mkHTTPClient (resty c) (hostURL c) (metrics c) chain.

(** [SetProxy] of the library: without an [*http.Transport] it only logs;
    otherwise it stores the parsed proxy URL, and removes the proxy when the
    URL does not parse. *)
Definition SetProxy (c : resty_Client) (proxyAddress : string) : resty_Client :=
  match getTransport c with
  | (c, None) => c
  | (c, Some t) =>
      match url_Parse proxyAddress with
      | inl pURL =>
          SetTransport (with_proxyURL c (Some pURL))
            (Some (rt_http (with_Proxy t (ProxyURL (Some pURL)))))
      | inr _ => RemoveProxy c
      end
  end.

Definition newClient (customClient : http_Client) (oauth : bool)
    (options : list Opt) : HTTPClient World Sink :=
  let client :=
    mkHTTPClient (resty_NewWithClient customClient) None None
      (Some noopCallback) in
  fold_left (fun client option => option client) options client.

Definition NewHTTPClient (options : list Opt) : HTTPClient World Sink :=
  newClient resty_New_GetClient false options.

Definition chainCallback (c : HTTPClient World Sink)
    (newCallback : Callback World) : HTTPClient World Sink :=
  match callbackChain c with
  | None => with_callbackChain c (Some newCallback)
  | Some previousCallback =>
      with_callbackChain c
        (Some (fun fn => newCallback (fun st => previousCallback fn st)))
  end.

Definition setTransport (c : HTTPClient World Sink) (transport : RoundTripper)
  : HTTPClient World Sink :=
  with_resty c (SetTransport (resty c) (Some transport)).

Definition WithDefaultTransport (transportTimeout : Duration) : Opt :=
  fun client =>
    let transport := NewDefaultTransport transportTimeout in
    setTransport client transport.

Definition WithTransport (transport : http_Transport) : Opt :=
  fun client => setTransport client (rt_http transport).

Definition WithOAUTHTransport (conf : cc_Config) (transportTimeout : Duration)
  : Opt :=
  fun client =>
    let transport :=
      oauth2_Transport conf (NewDefaultTransport transportTimeout) in
    setTransport client transport.

Definition WithDefaultTransportWithProxy (proxyURL : option URL) : Opt :=
  fun client =>
    let transport :=
      Transport (rt_http
        (mkTransport (ProxyURL proxyURL)
           (Some (mkDialer 0%Z (5 * Minute)%Z true))
           10 0 (90 * Second)%Z (10 * Second)%Z
           (Some (mkTLS VersionTLS12 (-1))))) in
    setTransport client transport.

Definition WithTimeout (timeout : Duration) : Opt :=
  fun client => with_resty client (SetTimeout (resty client) timeout).

Definition WithUserAgent (userAgent : string) : Opt :=
  fun client =>
    with_resty client (SetHeader (resty client) "User-Agent" userAgent).

Definition WithBasicAuth (username password : string) : Opt :=
  fun client =>
    with_resty client (SetBasicAuth (resty client) username password).

Definition WithAuthToken (token : string) : Opt :=
  fun client => with_resty client (SetAuthToken (resty client) token).

Definition WithCookie (name value : string) : Opt :=
  fun client =>
    let c := mkCookie name value 3600 "" in
    with_resty client (SetCookie (resty client) c).

Definition WithHostURL (baseURL : string) : Opt :=
  fun client =>
    let hostURL' :=
      match url_Parse baseURL with
      | inl u => Some u
      | inr _ => None
      end in
    mkHTTPClient (SetHostURL (resty client) baseURL) hostURL'
      (metrics client) (callbackChain client).

(** The closure that both [WithCircuitBreaker] and [WithBackoff] build:
    [resp] starts as nil, the runner runs a function that calls [fn], keeps
    its response in [resp] and returns its error, and the closure returns
    [resp] with the error of the runner.  The function's captured state is
    [resp] and the [startTime] cell that [fn] writes. *)
Definition run_around (run : Runner World) : Callback World :=
  fun fn st =>
    let resp : option Response := None in
    match run (option Response * Time)%type
            (fun captured w =>
               match fn (mkExecState (snd captured) w) with
               | Returns ((resp, err), st') =>
                   Returns (err, ((resp, startTime st'), world st'))
               | Panics reason => Panics reason
               end)
            (resp, startTime st) (world st) with
    | Returns (err, ((resp, start), w)) =>
        Returns ((resp, err), mkExecState start w)
    | Panics reason => Panics reason
    end.

Definition circuitBreakerCallback (config : circuitbreaker_Config)
  : Callback World :=
  run_around (circuitbreaker_Run config).

Definition backoffCallback (config : retry_Config) : Callback World :=
  run_around (retry_Run config).

Definition WithCircuitBreaker (config : circuitbreaker_Config) : Opt :=
  fun client => chainCallback client (circuitBreakerCallback config).

Definition WithBackoff (retries : Z) (waitTime : Duration) (exponential : bool)
  : Opt :=
  fun client =>
    chainCallback
      (with_resty client (SetRetryCount (resty client) retries))
      (backoffCallback (mkRetryConfig waitTime (negb exponential) retries)).

Definition WithLinearBackoff (retries : Z) (waitTime : Duration) : Opt :=
  WithBackoff retries waitTime false.

Definition WithExponentialBackoff (retries : Z) (waitTime : Duration) : Opt :=
  WithBackoff retries waitTime true.

Definition WithMetrics (m : option (Metrics Sink)) : Opt :=
  fun client =>
    mkHTTPClient (resty client) (hostURL client) m (callbackChain client).

Definition WithProxy (proxyAddress : string) : Opt :=
  fun client => with_resty client (SetProxy (resty client) proxyAddress).

Definition WithRetries (retries : Z) (waitTime maxWaitTime : Duration) : Opt :=
  fun client =>
    with_resty client
      (SetRetryMaxWaitTime
         (SetRetryWaitTime (SetRetryCount (resty client) retries) waitTime)
         maxWaitTime).

Definition WithRetryConditions (conditions : list RetryConditionFunc) : Opt :=
  fun client =>
    with_resty client (fold_left AddRetryCondition conditions (resty client)).

Definition WithChainCallback (fn : Callback World) : Opt :=
  fun client => chainCallback client fn.

(** *** Requests *)

Definition NewRequest (c : HTTPClient World Sink) : Request World Sink :=
  mkRequestBuilder "" (callbackChain c) (hostURL c) (metrics c)
    (resty_NewRequest (resty c)).

Definition Request_HostURL (r : Request World Sink) : option URL := r_hostURL r.

Definition SetAlias (r : Request World Sink) (alias' : string)
  : Request World Sink :=
  mkRequestBuilder alias' (r_chainCallback r) (r_hostURL r) (r_metrics r)
    (restyRequest r).

(** The clock and the network call, run on the [world] of the state. *)
Definition exec_time_Now : Exec World Time :=
  fun st =>
    let (now, w) := time_Now (world st) in
    Returns (now, mkExecState (startTime st) w).

Definition set_startTime (t : Time) : Exec World unit :=
  fun st => Returns (tt, mkExecState t (world st)).

Definition get_startTime : Exec World Time :=
  fun st => Returns (startTime st, st).

Definition exec_resty_Execute (rq : resty_Request) (method url : string)
  : Exec World (option resty_Response * option error) :=
  fun st =>
    match resty_Execute rq method url (world st) with
    | Returns (res, w) => Returns (res, mkExecState (startTime st) w)
    | Panics reason => Panics reason
    end.

(** [time.Since(t)]. *)
Definition time_Since (t : Time) : Exec World Duration :=
  now <- exec_time_Now ;; ret (Time_Sub now t).

(** [wrapResponse]: the fields are read off the library's response, and the
    response time is the time since the [startTime] of the request. *)
Definition wrapResponse (restyResponse : resty_Response) : Exec World Response :=
  start <- get_startTime ;;
  elapsed <- time_Since start ;;
  ret (mkResponse (resty_StatusCode restyResponse) (resty_Body restyResponse)
         (resty_Header restyResponse) (resty_Cookies restyResponse) elapsed).

(** The closure [execute] of [Request.Execute], the terminal action. *)
Definition execute (r : Request World Sink) (method url : string)
  : Exec World Result :=
  now <- exec_time_Now ;;
  _ <- set_startTime now ;;
  res <- exec_resty_Execute (restyRequest r) method url ;;
  match res with
  | (None, err) => ret (None, err)
  | (Some restyResponse, err) =>
      resp <- wrapResponse restyResponse ;;
      ret (Some resp, err)
  end.

(** The body of the goroutine that [registerMetrics] starts. *)
Definition reporter (metrics : Metrics Sink) (key : string)
    (resp : option Response) (err : option error) : Sink -> Sink :=
  fun s =>
    let attrs : gmap string string := ∅ in
    let '(attrs, s) :=
      match resp with
      | Some resp =>
          let s := PushToSeries metrics (Sprintf_s_dot_s key "response_time")
                     (Duration_Seconds (ResponseTime resp)) s in
          if negb (statusCode resp =? 0)%Z then
            let s := IncrCounter metrics
                       (key +:+ ".status." +:+ Sprintf_d (StatusCode resp)) s in
            (<["status" := Sprintf_d (StatusCode resp)]> attrs, s)
          else (attrs, s)
      | None => (attrs, s)
      end in
    let s :=
      match err with
      | Some e =>
          if errors_Is e ErrCircuitOpen
          then IncrCounter metrics (Sprintf_s_dot_s key "circuit_open") s
          else IncrCounter metrics (Sprintf_s_dot_s key "errors") s
      | None => s
      end in
    IncrCounterWithAttrs metrics (Sprintf_s_dot_s key "total") attrs s.

(** [registerMetrics] runs [f] and returns its result; with a sink it
    starts one goroutine, given here as the list of the tasks started. *)
Definition registerMetrics (key : string) (metrics : option (Metrics Sink))
    (f : Exec World Result) : Exec World (Result * list (Sink -> Sink)) :=
  res <- f ;;
  let (resp, err) := res in
  match metrics with
  | Some m => ret ((resp, err), [reporter m key resp err])
  | None => ret ((resp, err), [])
  end.

(** The first lines of [Request.Execute]: the metrics alias. *)
Definition metricsAlias (r : Request World Sink) (method url : string) : string :=
  let metricsAlias :=
    if (0 <? String.length (alias r))%nat then alias r
    else match r_hostURL r with
         | Some u =>
             let hostname := Hostname u in
             Sprintf_s_dot_s method (path_Join [hostname; url])
         | None => url
         end in
  strings_Replace_byte metricsAlias "." "-".

(** [Request.Execute]; calling a nil [chainCallback] panics. *)
Definition Execute (r : Request World Sink) (method url : string)
  : Exec World (Result * list (Sink -> Sink)) :=
  registerMetrics (metricsAlias r method url) (r_metrics r)
    (match r_chainCallback r with
     | Some chain => chain (execute r method url)
     | None => panic "invalid memory address or nil pointer dereference"
     end).

Definition Get (r : Request World Sink) (url : string) := Execute r "GET" url.
Definition Post (r : Request World Sink) (url : string) := Execute r "POST" url.
Definition Put (r : Request World Sink) (url : string) := Execute r "PUT" url.
Definition Patch (r : Request World Sink) (url : string) := Execute r "PATCH" url.
Definition Delete (r : Request World Sink) (url : string) := Execute r "DELETE" url.

(** *** The options by name

    Every option the package exports, as a value that can be inspected:
    [to_Opt] gives the option it stands for, [registers] the callback it
    adds to the chain (if it is a callback-registering option) and
    [setting] the part of the configuration it writes. *)

Inductive ConfigOption : Type :=
| opt_WithDefaultTransport (transportTimeout : Duration)
| opt_WithTransport (transport : http_Transport)
| opt_WithOAUTHTransport (conf : cc_Config) (transportTimeout : Duration)
| opt_WithDefaultTransportWithProxy (proxyURL : option URL)
| opt_WithTimeout (timeout : Duration)
| opt_WithUserAgent (userAgent : string)
| opt_WithBasicAuth (username password : string)
| opt_WithAuthToken (token : string)
| opt_WithCookie (name value : string)
| opt_WithHostURL (baseURL : string)
| opt_WithCircuitBreaker (config : circuitbreaker_Config)
| opt_WithLinearBackoff (retries : Z) (waitTime : Duration)
| opt_WithExponentialBackoff (retries : Z) (waitTime : Duration)
| opt_WithBackoff (retries : Z) (waitTime : Duration) (exponential : bool)
| opt_WithMetrics (m : option (Metrics Sink))
| opt_WithProxy (proxyAddress : string)
| opt_WithRetries (retries : Z) (waitTime maxWaitTime : Duration)
| opt_WithRetryConditions (conditions : list RetryConditionFunc)
| opt_WithChainCallback (fn : Callback World).

Definition to_Opt (o : ConfigOption) : Opt :=
  match o with
  | opt_WithDefaultTransport d => WithDefaultTransport d
  | opt_WithTransport t => WithTransport t
  | opt_WithOAUTHTransport conf d => WithOAUTHTransport conf d
  | opt_WithDefaultTransportWithProxy u => WithDefaultTransportWithProxy u
  | opt_WithTimeout d => WithTimeout d
  | opt_WithUserAgent ua => WithUserAgent ua
  | opt_WithBasicAuth u pw => WithBasicAuth u pw
  | opt_WithAuthToken t => WithAuthToken t
  | opt_WithCookie n v => WithCookie n v
  | opt_WithHostURL b => WithHostURL b
  | opt_WithCircuitBreaker cfg => WithCircuitBreaker cfg
  | opt_WithLinearBackoff r w => WithLinearBackoff r w
  | opt_WithExponentialBackoff r w => WithExponentialBackoff r w
  | opt_WithBackoff r w e => WithBackoff r w e
  | opt_WithMetrics m => WithMetrics m
  | opt_WithProxy a => WithProxy a
  | opt_WithRetries r w mw => WithRetries r w mw
  | opt_WithRetryConditions cs => WithRetryConditions cs
  | opt_WithChainCallback fn => WithChainCallback fn
  end.

Definition registers (o : ConfigOption) : option (Callback World) :=
  match o with
  | opt_WithCircuitBreaker cfg => Some (circuitBreakerCallback cfg)
  | opt_WithLinearBackoff r w => Some (backoffCallback (mkRetryConfig w true r))
  | opt_WithExponentialBackoff r w =>
      Some (backoffCallback (mkRetryConfig w false r))
  | opt_WithBackoff r w e => Some (backoffCallback (mkRetryConfig w (negb e) r))
  | opt_WithChainCallback fn => Some fn
  | _ => None
  end.

Definition setting (o : ConfigOption) : Setting :=
  match o with
  | opt_WithDefaultTransport _ | opt_WithTransport _
  | opt_WithOAUTHTransport _ _ | opt_WithDefaultTransportWithProxy _
  | opt_WithProxy _ => set_transport
  | opt_WithTimeout _ => set_timeout
  | opt_WithUserAgent _ => set_header
  | opt_WithBasicAuth _ _ => set_basic_auth
  | opt_WithAuthToken _ => set_token
  | opt_WithCookie _ _ => set_cookies
  | opt_WithHostURL _ => set_host_url
  | opt_WithMetrics _ => set_metrics
  | opt_WithRetries _ _ _ => set_retries
  | opt_WithRetryConditions _ => set_retry_conditions
  | opt_WithCircuitBreaker _ | opt_WithLinearBackoff _ _
  | opt_WithExponentialBackoff _ _ | opt_WithBackoff _ _ _
  | opt_WithChainCallback _ => set_callback_chain
  end.

(** Two options that are not callback-registering and write different
    settings. *)
Definition independent (o1 o2 : ConfigOption) : bool :=
  negb (Setting_eqb (setting o1) set_callback_chain)
  && negb (Setting_eqb (setting o2) set_callback_chain)
  && negb (Setting_eqb (setting o1) (setting o2)).

(** *** The statements of the specification, in its words *)

(** The callbacks [cs], the outermost first, nested around [fn]: each
    receives the thunk that invokes the rest. *)
Fixpoint nest (cs : list (Callback World)) (fn : Exec World Result)
  : Exec World Result :=
  match cs with
  | [] => fn
  | c :: inner => c (fun st => nest inner fn st)
  end.

(** The alias by the template of the specification: the explicit alias,
    else method, dot, hostname, slash, url, else the raw url; dots replaced
    by hyphens. *)
Definition templated_alias (r : Request World Sink) (method url : string)
  : string :=
  strings_Replace_byte
    (if (0 <? String.length (alias r))%nat then alias r
     else match r_hostURL r with
          | Some u => method +:+ "." +:+ Hostname u +:+ "/" +:+ url
          | None => url
          end)
    "." "-".

End Package.

Arguments Opt : clear implicits.
Arguments ConfigOption : clear implicits.

(** A timing sample under the key [key] is among the calls. *)
Definition emits_timing_sample (key : string) (calls : list MetricCall) : Prop :=
  exists value,
    In (call_PushToSeries (Sprintf_s_dot_s key "response_time") value) calls.

(** The calls of the reporter, as the specification lists them: the timing
    sample and the status counter for a response, the counter of the error,
    the total with the attributes collected. *)
Definition listed_calls (key : string) (resp : option Response)
    (err : option error) : list MetricCall :=
  match resp with
  | Some r =>
      call_PushToSeries (key +:+ ".response_time")
        (Duration_Seconds (ResponseTime r))
      :: (if (StatusCode r =? 0)%Z then []
          else [call_IncrCounter (key +:+ ".status." +:+ Sprintf_d (StatusCode r))])
  | None => []
  end
  ++ match err with
     | Some e =>
         [call_IncrCounter
            (if errors_Is e ErrCircuitOpen then key +:+ ".circuit_open"
             else key +:+ ".errors")]
     | None => []
     end
  ++ [call_IncrCounterWithAttrs (key +:+ ".total")
        (match resp with
         | Some r =>
             if (StatusCode r =? 0)%Z then ∅
             else {["status" := Sprintf_d (StatusCode r)]}
         | None => ∅
         end)].

(** What [Transport.RoundTrip] makes of the result of the wrapped round
    tripper: with an error, the response is dropped. *)
Definition passed_through {World : Type}
    (o : Outcome ((option http_Response * option error) * World))
  : Outcome ((option http_Response * option error) * World) :=
  match o with
  | Returns ((resp, Some e), w) => Returns ((None, Some e), w)
  | other => other
  end.

(** [strings.EqualFold] on ASCII names. *)
Fixpoint lower_all (s : string) : string :=
  match s with
  | EmptyString => EmptyString
  | String c rest => String (to_lower c) (lower_all rest)
  end.

Definition EqualFold (s t : string) : bool := String.eqb (lower_all s) (lower_all t).

(** ** A small platform for the examples

    A world with a clock and a log; a network that, as the request library
    does, answers a call without a URL with an error and a response that
    has no raw response behind it (status 0), and answers 200 otherwise
    (the handler of the package's tests); a parser
    that, like [url.Parse], rejects control characters and a leading colon
    and reads [scheme://host/path]; a breaker whose circuit is closed; a
    retry runner that tries a failed call once more. *)

Module Sample.

Record World := mkWorld { clock : Time; log : list string }.

Definition Sink : Type := list MetricCall.

Definition is_control (c : ascii) : bool :=
  (nat_of_ascii c <? 32)%nat || (nat_of_ascii c =? 127)%nat.

Fixpoint has_control (s : string) : bool :=
  match s with
  | EmptyString => false
  | String c rest => is_control c || has_control rest
  end.

(** The part of [s] before the first slash, and the rest. *)
Fixpoint cut_slash (s : string) : string * string :=
  match s with
  | EmptyString => (EmptyString, EmptyString)
  | String c rest =>
      if Ascii.eqb c "/" then (EmptyString, s)
      else let (h, p) := cut_slash rest in (String c h, p)
  end.

(** The scheme and what follows [://], when [s] has that form. *)
Fixpoint cut_scheme (s : string) : option (string * string) :=
  match s with
  | EmptyString => None
  | String c rest =>
      if Ascii.eqb c ":" then
        match rest with
        | String "/" (String "/" after) => Some (EmptyString, after)
        | _ => None
        end
      else match cut_scheme rest with
           | Some (scheme, after) => Some (String c scheme, after)
           | None => None
           end
  end.

Definition parse (rawURL : string) : URL + error :=
  if has_control rawURL
  then inr (errors_New "net/url: invalid control character in URL")
  else if HasPrefix_byte rawURL ":"
  then inr (errors_New "missing protocol scheme")
  else match cut_scheme rawURL with
       | Some (scheme, after) =>
           let (host, path) := cut_slash after in inl (mkURL scheme host path)
       | None => inl (mkURL "" "" rawURL)
       end.

Definition OK_response : resty_Response :=
  mkRestyResponse 200 {["Testheader" := ["test"]]}
    [Byte.x4f; Byte.x4b]
    [mkCookie "testCookie" "test" 0 "testCookie=test"].

(** What the accessors of the library's response give when the call got
    no raw response. *)
Definition no_raw_response : resty_Response := mkRestyResponse 0 ∅ [] [].

Definition network (rq : resty_Request) (method url : string) (w : World)
  : Outcome ((option resty_Response * option error) * World) :=
  if String.eqb url ""
  then Returns ((Some no_raw_response,
                 Some (errors_New "unsupported protocol scheme")),
                mkWorld (clock w) (log w ++ [method +:+ " failed"]))
  else Returns ((Some OK_response, None),
                mkWorld (clock w + 20 * Millisecond)%Z (log w ++ [method +:+ " " +:+ url])).

(** The breaker while its circuit is closed: it runs the function once. *)
Definition breaker (config : circuitbreaker_Config) : Runner World :=
  fun S f captured w => f captured w.

Definition retrier (config : retry_Config) : Runner World :=
  fun S f captured w =>
    match f captured w with
    | Returns (Some e, (captured', w')) =>
        if (1 <? Times config)%Z then f captured' w'
        else Returns (Some e, (captured', w'))
    | other => other
    end.

#[export] Instance platform : Platform World := {|
  url_Parse := parse;
  time_Now := fun w => (clock w, mkWorld (clock w + Millisecond)%Z (log w));
  resty_Execute := network;
  circuitbreaker_Run := breaker;
  retry_Run := retrier
|}.

(** A callback that writes to the log when it is entered and when the rest
    of the chain has returned. *)
Definition tracing (name : string) : Callback World :=
  fun fn st =>
    let st1 := mkExecState (startTime st)
                 (mkWorld (clock (world st)) (log (world st) ++ ["enter " +:+ name])) in
    match fn st1 with
    | Returns (res, st2) =>
        Returns (res, mkExecState (startTime st2)
                        (mkWorld (clock (world st2))
                           (log (world st2) ++ ["leave " +:+ name])))
    | Panics reason => Panics reason
    end.

Definition start : ExecState World := mkExecState 0%Z (mkWorld 1000%Z []).

Definition client (options : list (Opt World Sink)) : HTTPClient World Sink :=
  NewHTTPClient options.

(** A round tripper that answers 503 together with an error. *)
Definition failing_with_response : http_RoundTrip World :=
  fun req w =>
    Returns ((Some (mkHttpResponse 503 ∅ []), Some (errors_New "bad gateway")), w).

(** A round tripper that answers 200 and logs the request id it was sent. *)
Definition echo : http_RoundTrip World :=
  fun req w =>
    Returns ((Some (mkHttpResponse 200 ∅ []), None),
             mkWorld (clock w)
               (log w ++ [match req_Header req with
                          | Some h => Header_Get h "X-Request-ID"
                          | None => ""
                          end])).

Definition request_with (ctx : Context) : http_Request :=
  mkRequest "GET" "http://host.example/path" (Some ∅) ctx.

(** The same request with a nil header map. *)
Definition request_without_header (ctx : Context) : http_Request :=
  mkRequest "GET" "http://host.example/path" None ctx.

Definition id_key : any := any_string contextRequestIDKey.

(** A request of a client with a host URL, and one of a client with the
    recording sink and the explicit alias [api]. *)
Definition with_host : Request World Sink :=
  NewRequest (client [WithHostURL "http://host.example"]).

Definition with_sink : Request World Sink :=
  SetAlias (NewRequest (client [WithMetrics (Some recorder)])) "api".

End Sample.

(** ** Further definitions *)

Section PackageMore.

Context {World Sink : Type} `{!Platform World}.

(** [GetClient] returns the current [http.Client], the one the library's
    client holds. *)
Definition GetClient (c : HTTPClient World Sink) : http_Client :=
  httpClient (resty c).

(** The options that install a transport through [setTransport]. *)
Definition installs_transport (o : ConfigOption World Sink) : bool :=
  match o with
  | opt_WithDefaultTransport _ | opt_WithTransport _
  | opt_WithOAUTHTransport _ _ | opt_WithDefaultTransportWithProxy _ => true
  | _ => false
  end.

(** [replaces later earlier]: both options assign the same setting outright
    (a transport, the timeout, the user agent, the basic auth, the token,
    the host URL, the sink, the retry parameters). *)
Definition replaces (later earlier : ConfigOption World Sink) : bool :=
  (installs_transport later && installs_transport earlier)
  || match later, earlier with
     | opt_WithTimeout _, opt_WithTimeout _
     | opt_WithUserAgent _, opt_WithUserAgent _
     | opt_WithBasicAuth _ _, opt_WithBasicAuth _ _
     | opt_WithAuthToken _, opt_WithAuthToken _
     | opt_WithHostURL _, opt_WithHostURL _
     | opt_WithMetrics _, opt_WithMetrics _
     | opt_WithRetries _ _ _, opt_WithRetries _ _ _ => true
     | _, _ => false
     end.

(** The options that write the library's retry count: [WithRetries] and
    the backoff options. *)
Definition sets_retry_count (o : ConfigOption World Sink) : bool :=
  match o with
  | opt_WithRetries _ _ _ | opt_WithLinearBackoff _ _
  | opt_WithExponentialBackoff _ _ | opt_WithBackoff _ _ _ => true
  | _ => false
  end.

End PackageMore.

(** The name a call to the sink carries. *)
Definition call_name (c : MetricCall) : string :=
  match c with
  | call_IncrCounter name => name
  | call_PushToSeries name _ => name
  | call_IncrCounterWithAttrs name _ => name
  end.

(** The part of [s] before its first dot, and the part after it. *)
Fixpoint cut_at_dot (s : string) : string * string :=
  match s with
  | EmptyString => (EmptyString, EmptyString)
  | String c rest =>
      if Ascii.eqb c "." then (EmptyString, rest)
      else let (before, after) := cut_at_dot rest in (String c before, after)
  end.

(** The error [e] wrapped once for each message, the first outermost. *)
Definition wrap_all (msgs : list string) (e : error) : error :=
  fold_right errors_Wrap e msgs.

(** A runner that rejects with [err] without calling the function (an open
    circuit), and one that calls it once and returns its error. *)
Definition rejecting (World : Type) (err : option error) : Runner World :=
  fun S f captured w => Returns (err, (captured, w)).

Definition calling_once (World : Type) : Runner World :=
  fun S f captured w => f captured w.

(** The sample platform at a time when the circuit is open: the breaker's
    runner rejects every call with the sentinel. *)
Module OpenCircuit.

Definition platform : Platform Sample.World := {|
  url_Parse := Sample.parse;
  time_Now :=
    fun w => (Sample.clock w,
              Sample.mkWorld (Sample.clock w + Millisecond)%Z (Sample.log w));
  resty_Execute := Sample.network;
  circuitbreaker_Run :=
    fun _ => rejecting Sample.World (Some ErrCircuitOpen);
  retry_Run := Sample.retrier
|}.

(** The test's breaker configuration: one error in one request opens. *)
Definition config : circuitbreaker_Config :=
  mkBreakerConfig 1 1 0 (500 * Millisecond)%Z 0 0%Z.

(** A request, with the alias [api], of a client with the recording sink
    and the breaker. *)
Definition request : Request Sample.World Sample.Sink :=
  SetAlias
    (NewRequest
       (NewHTTPClient
          [WithMetrics (Some recorder);
           @WithCircuitBreaker Sample.World Sample.Sink platform config]))
    "api".

End OpenCircuit.

(** What the caller of [Execute] receives: the result and the state, without
    the reporters started. *)
Definition caller_view {World Sink : Type}
    (o : Outcome ((Result * list (Sink -> Sink)) * ExecState World))
  : Outcome (Result * ExecState World) :=
  match o with
  | Returns ((res, _), st) => Returns (res, st)
  | Panics reason => Panics reason
  end.

(** * Properties *)

Section Properties.

Context {World Sink : Type} `{!Platform World}.

Implicit Types (c : HTTPClient World Sink) (o : ConfigOption World Sink)
  (fn : Exec World Result).

(** ** The callback chain *)

Lemma nest_app (outer inner : list (Callback World)) fn :
  nest (outer ++ inner) fn = nest outer (nest inner fn).
Proof.
  induction outer as [|cb outer IH]; simpl.
  - reflexivity.
  - rewrite IH. reflexivity.
Qed.

(** What one option does to the chain: a callback-registering option wraps
    its callback around the chain, any other option leaves it alone. *)
Lemma callbackChain_to_Opt o c :
  callbackChain (@to_Opt World Sink _ o c) =
  match registers o with
  | Some cb =>
      match callbackChain c with
      | Some previous => Some (fun fn => cb (fun st => previous fn st))
      | None => Some cb
      end
  | None => callbackChain c
  end.
Proof.
  destruct o; simpl; try reflexivity;
    unfold WithCircuitBreaker, WithLinearBackoff, WithExponentialBackoff,
      WithBackoff, WithChainCallback, chainCallback; simpl;
    destruct (callbackChain c); reflexivity.
Qed.

Lemma chain_after_options (os : list (ConfigOption World Sink)) :
  forall c chain0,
    callbackChain c = Some chain0 ->
    exists chain,
      callbackChain (fold_left (fun client option => option client)
                       (map to_Opt os) c) = Some chain
      /\ forall fn, chain fn = nest (rev (omap registers os)) (chain0 fn).
Proof.
  induction os as [|o os IH]; intros c chain0 Hc; simpl.
  - exists chain0. split; [assumption | reflexivity].
  - pose proof (callbackChain_to_Opt o c) as Ho. rewrite Hc in Ho.
    destruct (registers o) as [cb|] eqn:Hreg.
    + destruct (IH _ _ Ho) as (chain & Hchain & Hnest).
      exists chain. split; [exact Hchain|].
      intros fn. rewrite Hnest. simpl. rewrite nest_app. reflexivity.
    + destruct (IH _ _ Ho) as (chain & Hchain & Hnest).
      exists chain. split; [exact Hchain|]. exact Hnest.
Qed.

(** C1. For the options applied in order at construction, the composed
    chain run on a terminal action [fn] is the nesting of the callbacks they
    registered, the last registered outermost and [fn] innermost; with no
    callback registered the chain is the identity and runs [fn] itself. *)
Theorem callback_chain_nesting (customClient : http_Client) (oauth : bool)
    (os : list (ConfigOption World Sink)) :
  exists chain,
    callbackChain (@newClient World Sink customClient oauth (map to_Opt os))
      = Some chain
    /\ (forall fn, chain fn = nest (rev (omap registers os)) fn)
    /\ (omap registers os = [] -> forall fn, chain fn = fn)
    /\ (forall cs cb, omap registers os = cs ++ [cb] ->
          forall fn, chain fn = cb (nest (rev cs) fn)).
Proof.
  unfold newClient.
  destruct (chain_after_options os
              (mkHTTPClient (resty_NewWithClient customClient) None None
                 (Some noopCallback)) noopCallback eq_refl)
    as (chain & Hchain & Hnest).
  exists chain. split; [exact Hchain|]. split; [exact Hnest|]. split.
  - intros Hnone fn. rewrite Hnest, Hnone. reflexivity.
  - intros cs cb Hcs fn. rewrite Hnest, Hcs, rev_app_distr. reflexivity.
Qed.

(** ** The metrics alias *)

(** Replacing a byte keeps the length and changes byte by byte. *)
Lemma strings_Replace_byte_length (s : string) (old new : ascii) :
  String.length (strings_Replace_byte s old new) = String.length s.
Proof. induction s as [|b s IH]; simpl; [reflexivity | now rewrite IH]. Qed.

Lemma strings_Replace_byte_get (s : string) (old new : ascii) :
  forall i,
    String.get i (strings_Replace_byte s old new)
    = (fun b => if Ascii.eqb b old then new else b) <$> String.get i s.
Proof.
  induction s as [|b s IH]; intros i; simpl.
  - reflexivity.
  - destruct i as [|i]; [reflexivity | apply IH].
Qed.

Lemma length_zero_empty (s : string) :
  (0 <? String.length s)%nat = match s with EmptyString => false | _ => true end.
Proof. destruct s; reflexivity. Qed.

(** C2 (amended). The alias is the explicit alias when one is set;
    otherwise, with a host URL, the method, a dot and [path.Join] of the
    hostname and the url (joined by one slash and cleaned); otherwise the
    raw url.  In each case every dot is replaced by a hyphen and nothing
    else changes.  With host [host.example], method GET and url [/path] the
    alias is [GET-host-example/path]. *)
Theorem metrics_alias_derivation (r : Request World Sink) (method url : string) :
  let base :=
    match alias r with
    | EmptyString =>
        match r_hostURL r with
        | Some u => method +:+ "." +:+ path_Join [Hostname u; url]
        | None => url
        end
    | explicit => explicit
    end in
  String.length (metricsAlias r method url) = String.length base
  /\ (forall i,
        String.get i (metricsAlias r method url)
        = (fun b => if Ascii.eqb b "." then "-"%char else b) <$> String.get i base)
  /\ (forall i, String.get i (metricsAlias r method url) <> Some "."%char)
  /\ (forall chain m rq,
        @metricsAlias World Sink
          (mkRequestBuilder "" chain (Some (mkURL "http" "host.example" "")) m rq)
          "GET" "/path" = "GET-host-example/path").
Proof.
  intros base.
  assert (Hbase : metricsAlias r method url = strings_Replace_byte base "." "-").
  { unfold metricsAlias, base, Sprintf_s_dot_s. rewrite length_zero_empty.
    destruct (alias r); reflexivity. }
  rewrite Hbase. split; [apply strings_Replace_byte_length|].
  split; [apply strings_Replace_byte_get|]. split.
  - intros i. rewrite strings_Replace_byte_get.
    destruct (String.get i base) as [b|]; simpl; [|discriminate].
    destruct (Ascii.eqb b ".") eqn:Hb; [discriminate|].
    intros [= ->]. discriminate.
  - intros chain m rq. reflexivity.
Qed.

(** ** The metrics reporter *)

(** On any sink, the goroutine makes the calls of [listed_calls], in that
    order. *)
Lemma reporter_listed_calls (m : Metrics Sink) (key : string)
    (resp : option Response) (err : option error) (s : Sink) :
  reporter m key resp err s = fold_left (perform m) (listed_calls key resp err) s.
Proof.
  unfold reporter, listed_calls, Sprintf_s_dot_s, StatusCode, ResponseTime.
  destruct resp as [r|]; destruct err as [e|]; simpl;
    try destruct (statusCode r =? 0)%Z; simpl;
    try destruct (errors_Is e ErrCircuitOpen); reflexivity.
Qed.

(** C3 (amended). When the chain returned [(resp, err)] and a sink is
    configured, one reporter is started and it makes exactly these calls:
    for a non-nil [resp] the timing sample [alias.response_time] and, with
    a nonzero status, the counter [alias.status.code]; for a non-nil [err]
    the counter [alias.circuit_open] when the error is the circuit-open
    sentinel and [alias.errors] otherwise; and always the counter
    [alias.total] with the attributes collected (the status, when it was
    counted).  Without a sink no reporter is started. *)
Theorem metrics_reporting (key : string) (metrics : option (Metrics Sink))
    (f : Exec World Result) (st : ExecState World) :
  match f st with
  | Panics reason => registerMetrics key metrics f st = Panics reason
  | Returns ((resp, err), st') =>
      exists tasks,
        registerMetrics key metrics f st = Returns (((resp, err), tasks), st')
        /\ match metrics with
           | None => tasks = []
           | Some m =>
               exists task,
                 tasks = [task]
                 /\ forall s,
                      task s = fold_left (perform m) (listed_calls key resp err) s
           end
  end.
Proof.
  unfold registerMetrics, bind.
  destruct (f st) as [[[resp err] st']|reason]; [|reflexivity].
  destruct metrics as [m|]; simpl.
  - eexists. split; [reflexivity|]. eexists. split; [reflexivity|].
    intros s. apply reporter_listed_calls.
  - eexists. split; reflexivity.
Qed.

End Properties.

Section TransportProperties.

Context {World : Type}.

(** ** Contexts and the request id *)

Lemma Context_Value_WithValue (ctx : Context) (key : any) (val : option any) :
  Context_Value (context_WithValue ctx key val) key = val.
Proof. simpl. destruct (decide (key = key)); [reflexivity | contradiction]. Qed.

Lemma Context_Value_WithValue_other (ctx : Context) (key key' : any)
    (val : option any) :
  key' <> key ->
  Context_Value (context_WithValue ctx key' val) key = Context_Value ctx key.
Proof. intros Hne. simpl. destruct (decide (key' = key)); [contradiction | reflexivity]. Qed.

(** C10. [requestID] returns the empty string when no value is stored under
    the key [request.id], and the stored value when it is a string; when
    the stored value is not a string the type assertion panics, and so does
    [Transport.RoundTrip] on a request with that context. *)
Theorem requestID_lookup (ctx : Context) :
  (Context_Value ctx (any_string "request.id") = None ->
     requestID ctx = Returns "")
  /\ (forall s,
        Context_Value ctx (any_string "request.id") = Some (any_string s) ->
        requestID ctx = Returns s)
  /\ (forall v,
        Context_Value ctx (any_string "request.id") = Some v ->
        (forall s, v <> any_string s) ->
        (exists reason, requestID ctx = Panics reason)
        /\ forall (inner : http_RoundTrip World) req w,
             req_Context req = ctx ->
             exists reason, RoundTrip inner req w = Panics reason).
Proof.
  unfold requestID, contextRequestIDKey. split; [|split].
  - intros ->. reflexivity.
  - intros s ->. reflexivity.
  - intros v Hv Hnot.
    assert (Hpanic : exists reason, requestID ctx = Panics reason).
    { unfold requestID, contextRequestIDKey. rewrite Hv.
      destruct v as [s| | |]; [destruct (Hnot s eq_refl) | | |]; eauto. }
    split; [exact Hpanic|].
    intros inner req w Hctx. destruct Hpanic as [reason Hreason].
    exists reason. unfold RoundTrip, setRequestIDHeader.
    rewrite Hctx, Hreason. reflexivity.
Qed.

(** ** The decorating transport *)

(** The request as [setRequestIDHeader] leaves it for the id [rID]. *)
Lemma Header_Add_lookup (h : http_Header) (key value k : string) :
  Header_Add h key value !! k =
  if decide (k = CanonicalMIMEHeaderKey key)
  then Some (default [] (h !! k) ++ [value])
  else h !! k.
Proof.
  unfold Header_Add. destruct (decide (k = CanonicalMIMEHeaderKey key)) as [->|Hne].
  - apply lookup_insert_eq.
  - apply lookup_insert_ne. congruence.
Qed.

(** C4 (amended). [Transport.RoundTrip] delegates the request unchanged
    when its context carries no request id (or an empty one).  When it
    carries a non-empty string id and the request has a header map, the
    request is delegated with that value added under the header
    X-Request-ID (canonical key X-Request-Id), after the values already
    there, and with every other header as it was.  When it carries a
    non-empty string id and the header map of the request is nil, the call
    panics on the write to the nil map; when the value is not a string, it
    panics on the type assertion; in both cases nothing is delegated.  The
    error of the wrapped round tripper is returned as it is; its response
    is returned when the error is nil and replaced by nil otherwise. *)
Theorem transport_round_trip (inner : http_RoundTrip World) (req : http_Request)
    (w : World) :
  RoundTrip inner req w =
    match Context_Value (req_Context req) (any_string "request.id") with
    | None => passed_through (inner req w)
    | Some (any_string rID) =>
        if String.eqb rID "" then passed_through (inner req w)
        else match req_Header req with
             | Some h =>
                 passed_through
                   (inner (mkRequest (req_Method req) (req_URL req)
                             (Some (Header_Add h "X-Request-ID" rID))
                             (req_Context req)) w)
             | None => Panics "assignment to entry in nil map"
             end
    | Some v =>
        Panics ("interface conversion: interface {} is " +:+ any_type_name v
                +:+ ", not string")
    end
  /\ (forall (h : http_Header) rID k,
        Header_Add h "X-Request-ID" rID !! k =
        if decide (k = "X-Request-Id")
        then Some (default [] (h !! k) ++ [rID])
        else h !! k)
  /\ (forall o : Outcome ((option http_Response * option error) * World),
        passed_through o =
        match o with
        | Returns ((resp, None), w') => Returns ((resp, None), w')
        | Returns ((_, Some e), w') => Returns ((None, Some e), w')
        | Panics reason => Panics reason
        end).
Proof.
  split; [|split].
  - unfold RoundTrip, setRequestIDHeader, requestID, contextRequestIDKey,
      passed_through.
    destruct (Context_Value (req_Context req) (any_string "request.id"))
      as [[rID| | |]|]; try reflexivity.
    + destruct (String.eqb rID ""); simpl.
      * destruct (inner req w) as [[[resp [e|]] w']|]; reflexivity.
      * destruct (req_Header req) as [h|]; [|reflexivity].
        destruct (inner _ w) as [[[resp [e|]] w']|]; reflexivity.
    + simpl. destruct (inner req w) as [[[resp [e|]] w']|]; reflexivity.
  - intros h rID k. apply Header_Add_lookup.
  - intros [[[resp [e|]] w']|reason]; reflexivity.
Qed.

End TransportProperties.

(** ** Header names are looked up without regard to case *)

Lemma to_upper_to_lower (a : ascii) : to_upper (to_lower a) = to_upper a.
Proof. destruct a as [[] [] [] [] [] [] [] []]; reflexivity. Qed.

Lemma to_lower_to_lower (a : ascii) : to_lower (to_lower a) = to_lower a.
Proof. destruct a as [[] [] [] [] [] [] [] []]; reflexivity. Qed.

Lemma validHeaderFieldByte_to_lower (a : ascii) :
  validHeaderFieldByte (to_lower a) = validHeaderFieldByte a.
Proof. destruct a as [[] [] [] [] [] [] [] []]; reflexivity. Qed.

Lemma canonical_from_lower_all (s : string) :
  forall upper, canonical_from upper (lower_all s) = canonical_from upper s.
Proof.
  induction s as [|a s IH]; intros upper; simpl; [reflexivity|].
  destruct upper.
  - rewrite to_upper_to_lower, IH. reflexivity.
  - rewrite to_lower_to_lower, IH. reflexivity.
Qed.

Lemma all_validHeaderFieldByte_lower_all (s : string) :
  all_validHeaderFieldByte (lower_all s) = all_validHeaderFieldByte s.
Proof.
  induction s as [|a s IH]; simpl; [reflexivity|].
  rewrite validHeaderFieldByte_to_lower, IH. reflexivity.
Qed.

Lemma CanonicalMIMEHeaderKey_EqualFold (k1 k2 : string) :
  EqualFold k1 k2 = true ->
  all_validHeaderFieldByte k1 = true ->
  CanonicalMIMEHeaderKey k1 = CanonicalMIMEHeaderKey k2.
Proof.
  unfold EqualFold, CanonicalMIMEHeaderKey. intros Heq Hvalid.
  apply String.eqb_eq in Heq.
  assert (Hvalid2 : all_validHeaderFieldByte k2 = true).
  { rewrite <- all_validHeaderFieldByte_lower_all, <- Heq,
      all_validHeaderFieldByte_lower_all. exact Hvalid. }
  rewrite Hvalid, Hvalid2.
  rewrite <- (canonical_from_lower_all k1), <- (canonical_from_lower_all k2), Heq.
  reflexivity.
Qed.

Section ExecutionProperties.

Context {World Sink : Type} `{!Platform World}.

(** ** The terminal action *)

(** C5. The terminal action of [Execute] records the start time and makes
    the underlying call.  When the call yields no response object it
    returns nil with the error of the call, without constructing a Response
    (the clock is not read again); otherwise it returns the wrapped
    Response together with whatever error the call produced. *)
Theorem execute_terminal_action (r : Request World Sink) (method url : string)
    (st : ExecState World) :
  let (now, w1) := time_Now (world st) in
  match resty_Execute (restyRequest r) method url w1 with
  | Panics reason => execute r method url st = Panics reason
  | Returns ((None, err), w2) =>
      execute r method url st = Returns ((None, err), mkExecState now w2)
  | Returns ((Some restyResponse, err), w2) =>
      let (now', w3) := time_Now w2 in
      execute r method url st =
        Returns ((Some (mkResponse (resty_StatusCode restyResponse)
                          (resty_Body restyResponse)
                          (resty_Header restyResponse)
                          (resty_Cookies restyResponse)
                          (Time_Sub now' now)),
                  err),
                 mkExecState now w3)
  end.
Proof.
  unfold execute, bind, exec_time_Now, set_startTime, exec_resty_Execute,
    wrapResponse, time_Since, get_startTime, bind, exec_time_Now, ret.
  destruct (time_Now (world st)) as [now w1]; simpl.
  destruct (resty_Execute (restyRequest r) method url w1)
    as [[[[restyResponse|] err] w2]|reason]; simpl; try reflexivity.
  destruct (time_Now w2) as [now' w3]; reflexivity.
Qed.

(** ** The caller's result *)

(** C6. The pair that [registerMetrics], and so [Execute], returns to the
    caller is the pair the callback chain produced, and the state is the
    one the chain left, for every sink and for none; a panic of the chain
    is the only way [Execute] fails. *)
Theorem metrics_never_alter_result (r : Request World Sink)
    (method url : string) (st : ExecState World) :
  (forall key metrics (f : Exec World Result),
     match f st with
     | Returns (res, st') =>
         exists tasks : list (Sink -> Sink),
           registerMetrics key metrics f st = Returns ((res, tasks), st')
     | Panics reason => registerMetrics key metrics f st = Panics reason
     end)
  /\ match r_chainCallback r with
     | Some chain =>
         match chain (execute r method url) st with
         | Returns (res, st') =>
             exists tasks,
               Execute r method url st = Returns ((res, tasks), st')
         | Panics reason => Execute r method url st = Panics reason
         end
     | None => exists reason, Execute r method url st = Panics reason
     end.
Proof.
  assert (Hreg : forall key metrics (f : Exec World Result),
     match f st with
     | Returns (res, st') =>
         exists tasks : list (Sink -> Sink),
           registerMetrics key metrics f st = Returns ((res, tasks), st')
     | Panics reason => registerMetrics key metrics f st = Panics reason
     end).
  { intros key metrics f. unfold registerMetrics, bind.
    destruct (f st) as [[[resp err] st']|reason]; [|reflexivity].
    destruct metrics; eexists; reflexivity. }
  split; [exact Hreg|].
  unfold Execute. destruct (r_chainCallback r) as [chain|].
  - apply Hreg.
  - eexists. reflexivity.
Qed.

(** ** The wrapped response *)

Lemma Cookie_loop_find (cs : list http_Cookie) (name : string) :
  Cookie_loop cs name = List.find (fun c => String.eqb (Name c) name) cs.
Proof.
  induction cs as [|c cs IH]; simpl; [reflexivity|].
  destruct (String.eqb (Name c) name); [reflexivity | exact IH].
Qed.

(** C8. The wrapped Response reflects the raw response: the same status
    code, body bytes, headers (so a lookup by name, which does not regard
    the case of a valid header name, finds the same value) and cookies
    (so [Cookie] finds the first raw cookie with the name, or nil), and its
    response time is the time from the start recorded on the request to the
    construction of the Response. *)
Theorem wrapped_response_reflects (restyResponse : resty_Response)
    (st : ExecState World) :
  exists resp,
    wrapResponse restyResponse st
      = Returns (resp, mkExecState (startTime st) (snd (time_Now (world st))))
    /\ StatusCode resp = resty_StatusCode restyResponse
    /\ Body resp = resty_Body restyResponse
    /\ Header resp = resty_Header restyResponse
    /\ (forall k1 k2,
          EqualFold k1 k2 = true -> all_validHeaderFieldByte k1 = true ->
          Header_Get (Header resp) k1 = Header_Get (resty_Header restyResponse) k2)
    /\ Cookies resp = resty_Cookies restyResponse
    /\ (forall name,
          Cookie resp name
          = List.find (fun c => String.eqb (Name c) name)
              (resty_Cookies restyResponse))
    /\ ResponseTime resp = Time_Sub (fst (time_Now (world st))) (startTime st)
    /\ ((minDuration <= fst (time_Now (world st)) - startTime st <= maxDuration)%Z ->
        ResponseTime resp = (fst (time_Now (world st)) - startTime st)%Z).
Proof.
  unfold wrapResponse, time_Since, get_startTime, bind, exec_time_Now, ret.
  destruct (time_Now (world st)) as [now w'] eqn:Hnow; simpl.
  eexists. split; [reflexivity|]. simpl.
  repeat split.
  - intros k1 k2 Hfold Hvalid. unfold Header_Get, Header; simpl.
    rewrite (CanonicalMIMEHeaderKey_EqualFold k1 k2 Hfold Hvalid). reflexivity.
  - intros name. unfold Cookie; simpl. apply Cookie_loop_find.
  - intros [Hlo Hhi]. unfold ResponseTime, Time_Sub; simpl.
    destruct (Z.ltb_spec (now - startTime st) minDuration); [lia|].
    destruct (Z.ltb_spec maxDuration (now - startTime st)); [lia|].
    reflexivity.
Qed.

End ExecutionProperties.

Section ConfigurationProperties.

Context {World Sink : Type} `{!Platform World}.

Implicit Types (c : HTTPClient World Sink) (o : ConfigOption World Sink).

(** ** Options that write different settings *)

Lemma fold_AddRetryCondition (conditions : list RetryConditionFunc) :
  forall rc,
    fold_left AddRetryCondition conditions rc =
    mkRestyClient (HostURL rc) (ClientHeader rc) (UserInfo rc) (Token rc)
      (ClientCookies rc) (RetryCount rc) (RetryWaitTime rc)
      (RetryMaxWaitTime rc) (RetryConditions rc ++ conditions)
      (httpClient rc) (proxyURL rc).
Proof.
  induction conditions as [|cond conditions IH]; intros rc; simpl.
  - rewrite app_nil_r. destruct rc; reflexivity.
  - rewrite IH. simpl. rewrite <- app_assoc. reflexivity.
Qed.

Ltac unfold_options :=
  unfold to_Opt, WithDefaultTransport, WithTransport, WithOAUTHTransport,
    WithDefaultTransportWithProxy, WithTimeout, WithUserAgent, WithBasicAuth,
    WithAuthToken, WithCookie, WithHostURL, WithMetrics, WithProxy,
    WithRetries, WithRetryConditions, setTransport, with_resty.

Ltac unfold_setters :=
  unfold SetProxy, RemoveProxy, getTransport, SetTransport, SetTimeout,
    SetHostURL, SetHeader, SetBasicAuth, SetAuthToken, SetCookie,
    SetRetryCount, SetRetryWaitTime, SetRetryMaxWaitTime, with_httpClient,
    with_proxyURL; simpl.

Lemma to_Opt_commute o1 o2 c :
  independent o1 o2 = true ->
  to_Opt o2 (to_Opt o1 c) = to_Opt o1 (to_Opt o2 c).
Proof.
  destruct c as [[host hdr user tok cks n wt mwt conds [tr tmo] pu] hu m chain].
  destruct o1, o2; try discriminate; intros _;
    unfold_options; simpl; rewrite ?fold_AddRetryCondition; simpl;
    try reflexivity;
    unfold_setters;
    destruct tr as [[t|inner|src base]|]; simpl; try reflexivity;
    destruct (url_Parse proxyAddress); reflexivity.
Qed.

(** C7 (amended). Two options that are not callback-registering and that
    write different settings of the Client can be applied in either order,
    anywhere in the list of options, and yield the same Client.  (Options
    that write the same setting, such as two transports or a transport and
    a proxy, are outside this statement: for them the later one decides.) *)
Theorem independent_options_commute (customClient : http_Client) (oauth : bool)
    (before after : list (Opt World Sink)) o1 o2 :
  independent o1 o2 = true ->
  newClient customClient oauth (before ++ [to_Opt o1; to_Opt o2] ++ after)
  = newClient customClient oauth (before ++ [to_Opt o2; to_Opt o1] ++ after).
Proof.
  intros Hind. unfold newClient. rewrite !fold_left_app. simpl.
  rewrite (to_Opt_commute o1 o2 _ Hind). reflexivity.
Qed.

(** ** A host URL that does not parse *)

Lemma hostURL_to_Opt o c :
  setting o <> set_host_url -> hostURL (to_Opt o c) = hostURL c.
Proof.
  destruct o; simpl; intros Hset; try reflexivity; try contradiction;
    unfold WithCircuitBreaker, WithLinearBackoff, WithExponentialBackoff,
      WithBackoff, WithChainCallback, chainCallback; simpl;
    destruct (callbackChain c); reflexivity.
Qed.

Lemma hostURL_after (os : list (ConfigOption World Sink)) :
  Forall (fun o => setting o <> set_host_url) os ->
  forall c,
    hostURL (fold_left (fun client option => option client) (map to_Opt os) c)
    = hostURL c.
Proof.
  induction 1 as [|o os Ho _ IH]; intros c; simpl; [reflexivity|].
  rewrite IH. apply hostURL_to_Opt. exact Ho.
Qed.

(** C9. [WithHostURL] never fails the construction: whatever the string,
    [newClient] yields a Client, whose host URL is the parsed URL or, when
    the string does not parse, nil; in that case a Request of the Client
    has no host URL and its alias, without an explicit one, is the raw url
    with the dots replaced. *)
Theorem host_url_degrades (customClient : http_Client) (oauth : bool)
    (before : list (Opt World Sink)) (after : list (ConfigOption World Sink))
    (baseURL : string) :
  Forall (fun o => setting o <> set_host_url) after ->
  let client :=
    newClient customClient oauth
      (before ++ [WithHostURL baseURL] ++ map to_Opt after) in
  hostURL client
    = match url_Parse baseURL with
      | inl u => Some u
      | inr _ => None
      end
  /\ (forall e,
        url_Parse baseURL = inr e ->
        hostURL client = None
        /\ Request_HostURL (NewRequest client) = None
        /\ forall method url,
             metricsAlias (NewRequest client) method url
             = strings_Replace_byte url "." "-").
Proof.
  intros Hafter client.
  assert (Hhost : hostURL client
                  = match url_Parse baseURL with
                    | inl u => Some u
                    | inr _ => None
                    end).
  { unfold client, newClient. rewrite !fold_left_app.
    rewrite (hostURL_after after Hafter). reflexivity. }
  split; [exact Hhost|].
  intros e He. rewrite He in Hhost.
  split; [exact Hhost|]. split.
  - unfold Request_HostURL, NewRequest. simpl. exact Hhost.
  - intros method url. unfold metricsAlias, NewRequest. simpl.
    rewrite Hhost. reflexivity.
Qed.

End ConfigurationProperties.

(** * Further properties of the package *)

(** ** Cookies of a Response *)

(** X1. [Response.Cookie] returns the first cookie that has the name: no
    cookie before it has the name; it returns nil exactly when no cookie
    has the name. *)
Theorem Cookie_first_match (r : Response) (name : string) :
  match Cookie r name with
  | Some c =>
      exists before after,
        Cookies r = before ++ c :: after
        /\ Name c = name
        /\ Forall (fun c' => Name c' <> name) before
  | None => Forall (fun c' => Name c' <> name) (Cookies r)
  end.
Proof.
  unfold Cookie, Cookies. induction (cookies r) as [|c cs IH]; simpl.
  - constructor.
  - destruct (String.eqb (Name c) name) eqn:Hname.
    + apply String.eqb_eq in Hname.
      exists [], cs. split; [reflexivity|]. split; [exact Hname | constructor].
    + apply String.eqb_neq in Hname.
      destruct (Cookie_loop cs name) as [found|].
      * destruct IH as (before & after & Hcs & Hfound & Hbefore).
        exists (c :: before), after. rewrite Hcs.
        split; [reflexivity|]. split; [exact Hfound|].
        constructor; assumption.
      * constructor; assumption.
Qed.

(** ** Contexts *)

(** X8. A request id stored with [WithValue] under the key [request.id] is
    what [requestID] returns, whatever the parent context holds; a nil
    stored there hides the parent's id; a value stored under any other key,
    such as a key of a named type with the same text, changes nothing. *)
Theorem requestID_WithValue (ctx : Context) :
  (forall s,
     requestID (context_WithValue ctx (any_string "request.id")
                  (Some (any_string s))) = Returns s)
  /\ requestID (context_WithValue ctx (any_string "request.id") None)
     = Returns ""
  /\ (forall key val,
        key <> any_string "request.id" ->
        requestID (context_WithValue ctx key val) = requestID ctx)
  /\ (forall type_name val,
        requestID (context_WithValue ctx
                     (any_named type_name (any_string "request.id")) val)
        = requestID ctx).
Proof.
  unfold requestID, contextRequestIDKey. split; [|split; [|split]].
  - intros s. rewrite Context_Value_WithValue. reflexivity.
  - rewrite Context_Value_WithValue. reflexivity.
  - intros key val Hkey. rewrite Context_Value_WithValue_other by exact Hkey.
    reflexivity.
  - intros type_name val.
    rewrite Context_Value_WithValue_other by discriminate. reflexivity.
Qed.

(** ** The decorating transport *)

Section MoreTransportProperties.

Context {World : Type}.

Lemma canonical_request_id_key :
  CanonicalMIMEHeaderKey "X-Request-ID" = "X-Request-Id".
Proof. reflexivity. Qed.

Lemma setRequestIDHeader_string (req : http_Request) (ctx : Context)
    (rID : string) (h : http_Header) :
  Context_Value ctx (any_string "request.id") = Some (any_string rID) ->
  rID <> "" ->
  req_Header req = Some h ->
  setRequestIDHeader ctx req
  = Returns (mkRequest (req_Method req) (req_URL req)
               (Some (<["X-Request-Id" :=
                          default [] (h !! "X-Request-Id") ++ [rID]]> h))
               (req_Context req)).
Proof.
  intros Hctx Hne Hh. unfold setRequestIDHeader, requestID, contextRequestIDKey.
  rewrite Hctx, Hh. apply String.eqb_neq in Hne. rewrite Hne.
  unfold Header_Add. rewrite canonical_request_id_key. reflexivity.
Qed.

(** X6. Whatever [Transport.RoundTrip] returns comes from one call of the
    wrapped round tripper in the same world: the error and the resulting
    world are the ones of that call, the request it was given has the
    method, URL and context of the original, a header map exactly when the
    original has one and, except under X-Request-Id, its headers, and the
    response is the one of that call when there is no error and nil when
    there is one. *)
Theorem round_trip_frame (inner : http_RoundTrip World) (req : http_Request)
    (w w' : World) (resp : option http_Response) (err : option error) :
  RoundTrip inner req w = Returns ((resp, err), w') ->
  exists req' resp',
    inner req' w = Returns ((resp', err), w')
    /\ req_Method req' = req_Method req
    /\ req_URL req' = req_URL req
    /\ req_Context req' = req_Context req
    /\ (req_Header req' = None <-> req_Header req = None)
    /\ (forall k, k <> "X-Request-Id" ->
          Header_values (req_Header req') k = Header_values (req_Header req) k)
    /\ resp = match err with
              | Some _ => None
              | None => resp'
              end.
Proof.
  unfold RoundTrip, setRequestIDHeader. intros Hrt.
  destruct (requestID (req_Context req)) as [rID|reason]; [|discriminate].
  destruct (String.eqb rID "").
  - destruct (inner req w) as [[[resp' err'] w1]|reason] eqn:Hinner;
      [|discriminate].
    exists req, resp'.
    destruct err'; inversion Hrt; subst;
      (split; [exact Hinner|]); repeat split; auto.
  - destruct (req_Header req) as [h|] eqn:Hh; [|discriminate].
    destruct (inner _ w) as [[[resp' err'] w1]|reason] eqn:Hinner;
      [|discriminate].
    eexists _, resp'.
    assert (Hother : forall k, k <> "X-Request-Id" ->
              Header_Add h "X-Request-ID" rID !! k = h !! k).
    { intros k Hk. unfold Header_Add. rewrite canonical_request_id_key.
      apply lookup_insert_ne. congruence. }
    destruct err'; inversion Hrt; subst;
      (split; [exact Hinner|]); simpl;
      repeat split; try reflexivity; try (intros; discriminate); exact Hother.
Qed.

(** X7. For a non-empty string id and a request that has a header map,
    [setRequestIDHeader] adds and does not replace: a lookup of
    X-Request-ID on the request it leaves gives the value the request
    already carried, if any, and the id otherwise; and a second pass over
    the same request adds the id a second time.  On a request whose header
    map is nil it panics on the write to the map. *)
Theorem request_id_is_added (req : http_Request) (rID : string) :
  Context_Value (req_Context req) (any_string "request.id")
    = Some (any_string rID) ->
  rID <> "" ->
  match req_Header req with
  | None =>
      setRequestIDHeader (req_Context req) req
      = Panics "assignment to entry in nil map"
  | Some h =>
      exists h' h'',
        setRequestIDHeader (req_Context req) req
        = Returns (mkRequest (req_Method req) (req_URL req) (Some h')
                     (req_Context req))
        /\ Header_Get h' "X-Request-ID"
           = match h !! "X-Request-Id" with
             | Some (v :: _) => v
             | _ => rID
             end
        /\ setRequestIDHeader (req_Context req)
             (mkRequest (req_Method req) (req_URL req) (Some h')
                (req_Context req))
           = Returns (mkRequest (req_Method req) (req_URL req) (Some h'')
                        (req_Context req))
        /\ h'' !! "X-Request-Id"
           = Some (default [] (h !! "X-Request-Id") ++ [rID; rID])
  end.
Proof.
  intros Hctx Hne.
  destruct (req_Header req) as [h|] eqn:Hh.
  - eexists _, _.
    split; [apply (setRequestIDHeader_string req _ rID h Hctx Hne Hh)|].
    split.
    + unfold Header_Get. rewrite canonical_request_id_key.
      rewrite lookup_insert_eq.
      destruct (h !! "X-Request-Id") as [[|v vs]|]; reflexivity.
    + split.
      * apply (setRequestIDHeader_string (mkRequest _ _ (Some _) _) _ rID _
                 Hctx Hne eq_refl).
      * rewrite !lookup_insert_eq. simpl. rewrite <- app_assoc. reflexivity.
  - unfold setRequestIDHeader, requestID, contextRequestIDKey.
    rewrite Hctx, Hh. apply String.eqb_neq in Hne. rewrite Hne. reflexivity.
Qed.

End MoreTransportProperties.

(** ** Requests and their execution *)

Section MoreExecutionProperties.

Context {World Sink : Type} `{!Platform World}.

Lemma execute_SetAlias (r : Request World Sink) (a method url : string) :
  execute (SetAlias r a) method url = execute r method url.
Proof. reflexivity. Qed.

(** X2. A non-empty alias set with [SetAlias] is the whole metrics key (with
    its dots replaced), the same for every method and url and whatever the
    host URL; an empty alias clears a previous one, so that the key is
    derived again; and the alias changes nothing of what the caller
    receives from [Execute]. *)
Theorem alias_only_names_metrics (r : Request World Sink) (a : string)
    (method url : string) :
  (a <> "" ->
   forall method' url',
     metricsAlias (SetAlias r a) method' url' = strings_Replace_byte a "." "-")
  /\ metricsAlias (SetAlias r "") method url
     = strings_Replace_byte
         match r_hostURL r with
         | Some u => method +:+ "." +:+ path_Join [Hostname u; url]
         | None => url
         end "." "-"
  /\ (forall st,
        caller_view (Execute (SetAlias r a) method url st)
        = caller_view (Execute r method url st)).
Proof.
  split; [|split].
  - intros Ha method' url'. unfold metricsAlias, SetAlias; simpl.
    destruct a; [contradiction | reflexivity].
  - reflexivity.
  - intros st. unfold Execute, registerMetrics, bind; simpl.
    rewrite execute_SetAlias.
    destruct (r_chainCallback r) as [chain|]; simpl; [|reflexivity].
    destruct (chain (execute r method url) st) as [[[resp err] st']|reason];
      [|reflexivity].
    destruct (r_metrics r); reflexivity.
Qed.

(** X3. A Request made by [NewRequest] from a Client that [newClient]
    built never fails on a nil callback chain: [Execute] runs the terminal
    action inside the callbacks the options registered, the last
    registered outermost, and directly when none was registered, and hands
    the result to [registerMetrics] with the Client's sink. *)
Theorem execute_of_constructed_client (customClient : http_Client)
    (oauth : bool) (os : list (ConfigOption World Sink))
    (method url : string) (st : ExecState World) :
  let client := newClient customClient oauth (map to_Opt os) in
  let r := NewRequest client in
  Execute r method url st
  = registerMetrics (metricsAlias r method url) (metrics client)
      (nest (rev (omap registers os)) (execute r method url)) st.
Proof.
  intros client r. unfold Execute.
  destruct (chain_after_options os
              (mkHTTPClient (resty_NewWithClient customClient) None None
                 (Some noopCallback)) noopCallback eq_refl)
    as (chain & Hchain & Hnest).
  change (callbackChain client = Some chain) in Hchain.
  unfold r at 2 3. unfold NewRequest; simpl. rewrite Hchain.
  rewrite (Hnest (execute r method url)). reflexivity.
Qed.


Lemma Time_Sub_nonnegative (t u : Time) : (u <= t)%Z -> (0 <= Time_Sub t u)%Z.
Proof.
  intros Hle. unfold Time_Sub, minDuration, maxDuration.
  destruct (Z.ltb_spec (t - u) (- 2 ^ 63)); [lia|].
  destruct (Z.ltb_spec (2 ^ 63 - 1) (t - u)); lia.
Qed.

(** X5. When the clock never runs backwards, neither by being read nor
    during the underlying call, the response time of a Response that the
    terminal action returns is not negative. *)
Theorem response_time_nonnegative (r : Request World Sink)
    (method url : string) (st st' : ExecState World) (resp : Response)
    (err : option error) :
  (forall w, (fst (time_Now w) <= fst (time_Now (snd (time_Now w))))%Z) ->
  (forall rq m u w res w',
     resty_Execute rq m u w = Returns (res, w') ->
     (fst (time_Now w) <= fst (time_Now w'))%Z) ->
  execute r method url st = Returns ((Some resp, err), st') ->
  (0 <= ResponseTime resp)%Z.
Proof.
  intros Hread Hcall.
  unfold execute, bind, exec_time_Now, set_startTime, exec_resty_Execute,
    wrapResponse, time_Since, get_startTime, bind, exec_time_Now, ret.
  pose proof (Hread (world st)) as H0.
  destruct (time_Now (world st)) as [now w1] eqn:Hnow; simpl in *.
  destruct (resty_Execute (restyRequest r) method url w1)
    as [[[[restyResponse|] err1] w2]|reason] eqn:Hexec; simpl;
    try discriminate.
  pose proof (Hcall _ _ _ _ _ _ Hexec) as H1.
  destruct (time_Now w2) as [now' w3] eqn:Hnow'; simpl in *.
  intros [= <- _ _]. unfold ResponseTime; simpl.
  apply Time_Sub_nonnegative. lia.
Qed.

End MoreExecutionProperties.

(** ** The names of the metrics *)

Lemma Replace_byte_no_old (s : string) (old new : ascii) :
  old <> new -> string_mem old (strings_Replace_byte s old new) = false.
Proof.
  intros Hne. induction s as [|b s IH]; simpl; [reflexivity|].
  rewrite IH, orb_false_r.
  destruct (Ascii.eqb b old) eqn:Hb.
  - apply Ascii.eqb_neq. congruence.
  - exact Hb.
Qed.

Lemma cut_at_dot_append (key suffix : string) :
  string_mem "." key = false ->
  cut_at_dot (key +:+ "." +:+ suffix) = (key, suffix).
Proof.
  induction key as [|b key IH]; simpl; intros Hmem; [reflexivity|].
  apply orb_false_iff in Hmem as [Hb Hrest].
  rewrite Hb, (IH Hrest). reflexivity.
Qed.

Lemma string_app_inv_head (p a b : string) : p +:+ a = p +:+ b -> a = b.
Proof.
  induction p as [|c p IH]; simpl; intros Heq; [exact Heq|].
  injection Heq as Heq. exact (IH Heq).
Qed.

Section MoreReporterProperties.

Context {World Sink : Type} `{!Platform World}.

(** X13. Every name the reporter sends to the sink for a call is the
    metrics alias of the call, a dot, and one of the suffixes
    response_time, status.code, circuit_open, errors and total; as the
    alias holds no dot, cutting a name at its first dot gives back the
    alias and the suffix. *)
Theorem metric_names_cut_at_alias (r : Request World Sink)
    (method url : string) (resp : option Response) (err : option error)
    (call : MetricCall) :
  let key := metricsAlias r method url in
  In call (reporter recorder key resp err []) ->
  exists suffix,
    call_name call = key +:+ "." +:+ suffix
    /\ cut_at_dot (call_name call) = (key, suffix)
    /\ (suffix = "response_time" \/ suffix = "circuit_open"
        \/ suffix = "errors" \/ suffix = "total"
        \/ exists code, suffix = "status." +:+ Sprintf_d code).
Proof.
  intros key Hin.
  assert (Hkey : string_mem "." key = false).
  { unfold key, metricsAlias. apply Replace_byte_no_old. discriminate. }
  assert (Hform : exists suffix,
             call_name call = key +:+ "." +:+ suffix
             /\ (suffix = "response_time" \/ suffix = "circuit_open"
                 \/ suffix = "errors" \/ suffix = "total"
                 \/ exists code, suffix = "status." +:+ Sprintf_d code)).
  { unfold reporter, Sprintf_s_dot_s, StatusCode, ResponseTime in Hin.
    destruct resp as [rsp|]; destruct err as [e|]; simpl in Hin;
      try destruct (statusCode rsp =? 0)%Z; simpl in Hin;
      try destruct (errors_Is e ErrCircuitOpen); simpl in Hin;
      repeat (destruct Hin as [<-|Hin]; [eexists; split; [reflexivity|]; eauto 8|]);
      try contradiction. }
  destruct Hform as (suffix & Hname & Hsuffix).
  exists suffix. split; [exact Hname|]. split; [|exact Hsuffix].
  rewrite Hname. apply cut_at_dot_append. exact Hkey.
Qed.

(** X15. An error that wraps the circuit-open sentinel, however deep, is
    counted as [circuit_open] and never as [errors]; an error made with
    [errors.New] is counted as [errors] and never as [circuit_open]. *)
Theorem wrapped_sentinel_is_circuit_open (key : string)
    (resp : option Response) (msgs : list string) (msg : string) :
  (In (call_IncrCounter (key +:+ ".circuit_open"))
      (reporter recorder key resp (Some (wrap_all msgs ErrCircuitOpen)) [])
   /\ ~ In (call_IncrCounter (key +:+ ".errors"))
          (reporter recorder key resp (Some (wrap_all msgs ErrCircuitOpen)) []))
  /\ (In (call_IncrCounter (key +:+ ".errors"))
        (reporter recorder key resp (Some (errors_New msg)) [])
      /\ ~ In (call_IncrCounter (key +:+ ".circuit_open"))
             (reporter recorder key resp (Some (errors_New msg)) [])).
Proof.
  assert (His : errors_Is (wrap_all msgs ErrCircuitOpen) ErrCircuitOpen = true).
  { induction msgs as [|m msgs IH]; simpl; [reflexivity | exact IH]. }
  assert (Hdistinct : forall a b : string,
            a <> b -> call_IncrCounter (key +:+ a) <> call_IncrCounter (key +:+ b)).
  { intros a b Hab [= Heq]. apply Hab. exact (string_app_inv_head _ _ _ Heq). }
  unfold reporter, Sprintf_s_dot_s, StatusCode, ResponseTime.
  rewrite His. simpl.
  split; split.
  - destruct resp as [rsp|]; simpl; [destruct (statusCode rsp =? 0)%Z|];
      simpl; auto 6.
  - destruct resp as [rsp|]; simpl; [destruct (statusCode rsp =? 0)%Z|];
      simpl; intros Hin;
      repeat (destruct Hin as [Heq|Hin];
              [try discriminate Heq;
               try (revert Heq; apply Hdistinct; discriminate)|]);
      try contradiction.
  - destruct resp as [rsp|]; simpl; [destruct (statusCode rsp =? 0)%Z|];
      simpl; auto 6.
  - destruct resp as [rsp|]; simpl; [destruct (statusCode rsp =? 0)%Z|];
      simpl; intros Hin;
      repeat (destruct Hin as [Heq|Hin];
              [try discriminate Heq;
               try (revert Heq; apply Hdistinct; discriminate)|]);
      try contradiction.
Qed.

End MoreReporterProperties.

(** ** The resilience callbacks *)

Section MoreCallbackProperties.

Context {World Sink : Type} `{!Platform World}.

(** X14. The callback built around a runner returns the response of the
    function the runner ran and the error of the runner: when the runner
    rejects without calling the function (an open circuit), the response
    is nil, the terminal action is not run and the state is untouched;
    when the runner calls the function once and returns its error, the
    callback behaves as the rest of the chain alone. *)
Theorem callback_around_runner (fn : Exec World Result) (st : ExecState World)
    (err : option error) :
  run_around (rejecting World err) fn st = Returns ((None, err), st)
  /\ run_around (calling_once World) fn st = fn st.
Proof.
  unfold run_around, rejecting, calling_once. split.
  - destruct st; reflexivity.
  - destruct st as [start0 w]; simpl.
    destruct (fn (mkExecState start0 w)) as [[[resp e] [start' w']]|reason];
      reflexivity.
Qed.

End MoreCallbackProperties.

(** ** What the options write *)

Section MoreConfigurationProperties.

Context {World Sink : Type} `{!Platform World}.

Implicit Types (c : HTTPClient World Sink) (o : ConfigOption World Sink).

Ltac open_options :=
  unfold to_Opt, WithDefaultTransport, WithTransport, WithOAUTHTransport,
    WithDefaultTransportWithProxy, WithTimeout, WithUserAgent, WithBasicAuth,
    WithAuthToken, WithCookie, WithHostURL, WithMetrics, WithProxy,
    WithRetries, WithRetryConditions, WithCircuitBreaker, WithLinearBackoff,
    WithExponentialBackoff, WithBackoff, WithChainCallback, chainCallback,
    setTransport, with_resty, with_callbackChain.

Ltac open_setters :=
  unfold SetProxy, RemoveProxy, getTransport, SetTransport, SetTimeout,
    SetHostURL, SetHeader, SetBasicAuth, SetAuthToken, SetCookie,
    SetRetryCount, SetRetryWaitTime, SetRetryMaxWaitTime, with_httpClient,
    with_proxyURL; simpl.

(** X9. An option writes its own setting and nothing else: the transport
    and the proxy URL are left alone by every option but the transport and
    proxy options, the timeout by every option but [WithTimeout], and so on
    for the headers, the basic auth, the token, the cookies, the host URL,
    the sink, the retry waits, the retry count (written by [WithRetries]
    and by the backoff options), the retry conditions and the callback
    chain. *)
Theorem option_writes_only_its_setting o c :
  (setting o <> set_transport ->
     hc_Transport (GetClient (to_Opt o c)) = hc_Transport (GetClient c)
     /\ proxyURL (resty (to_Opt o c)) = proxyURL (resty c))
  /\ (setting o <> set_timeout ->
        hc_Timeout (GetClient (to_Opt o c)) = hc_Timeout (GetClient c))
  /\ (setting o <> set_header ->
        ClientHeader (resty (to_Opt o c)) = ClientHeader (resty c))
  /\ (setting o <> set_basic_auth ->
        UserInfo (resty (to_Opt o c)) = UserInfo (resty c))
  /\ (setting o <> set_token -> Token (resty (to_Opt o c)) = Token (resty c))
  /\ (setting o <> set_cookies ->
        ClientCookies (resty (to_Opt o c)) = ClientCookies (resty c))
  /\ (setting o <> set_host_url ->
        HostURL (resty (to_Opt o c)) = HostURL (resty c)
        /\ hostURL (to_Opt o c) = hostURL c)
  /\ (setting o <> set_metrics -> metrics (to_Opt o c) = metrics c)
  /\ (setting o <> set_retries ->
        RetryWaitTime (resty (to_Opt o c)) = RetryWaitTime (resty c)
        /\ RetryMaxWaitTime (resty (to_Opt o c)) = RetryMaxWaitTime (resty c))
  /\ (sets_retry_count o = false ->
        RetryCount (resty (to_Opt o c)) = RetryCount (resty c))
  /\ (setting o <> set_retry_conditions ->
        RetryConditions (resty (to_Opt o c)) = RetryConditions (resty c))
  /\ (setting o <> set_callback_chain ->
        callbackChain (to_Opt o c) = callbackChain c).
Proof.
  destruct c as [[host hdr user tok cks n wt mwt conds [tr tmo] pu] hu m chain].
  unfold GetClient.
  destruct o; simpl;
    repeat match goal with
           | |- _ /\ _ => split
           | |- _ -> _ => intros ?
           end;
    try contradiction; try discriminate;
    open_options; simpl; rewrite ?fold_AddRetryCondition; simpl;
    try reflexivity;
    try (destruct chain; reflexivity);
    open_setters;
    destruct tr as [[t|inner|src base]|]; simpl; try reflexivity;
    destruct (url_Parse proxyAddress); reflexivity.
Qed.

(** X10. Of two options that assign the same setting outright (two
    transport options, two timeouts, two user agents, two basic auths, two
    tokens, two host URLs, two sinks, two sets of retry parameters) the
    later one decides: the Client is the one built without the earlier. *)
Theorem later_option_replaces (customClient : http_Client) (oauth : bool)
    (before after : list (Opt World Sink)) (earlier later : ConfigOption World Sink) :
  replaces later earlier = true ->
  newClient customClient oauth
    (before ++ [to_Opt earlier; to_Opt later] ++ after)
  = newClient customClient oauth (before ++ [to_Opt later] ++ after).
Proof.
  intros Hrep. unfold newClient. rewrite !fold_left_app. simpl.
  f_equal.
  generalize (fold_left (fun client option => option client) before
                (mkHTTPClient (resty_NewWithClient customClient) None None
                   (Some (@noopCallback World)))).
  intros c.
  destruct c as [[host hdr user tok cks n wt mwt conds [tr tmo] pu] hu m chain].
  destruct earlier, later; try discriminate Hrep;
    open_options; open_setters; try reflexivity.
  unfold Header_Set. rewrite insert_insert_eq. reflexivity.
Qed.

(** X11. [WithRetryConditions] adds its conditions after the ones the
    Client has, in order: with no condition it leaves the Client as it is,
    and with a list in two parts it is the option of the first part
    followed by the option of the second. *)
Theorem retry_conditions_accumulate c (first second : list RetryConditionFunc) :
  WithRetryConditions [] c = c
  /\ WithRetryConditions (first ++ second) c
     = WithRetryConditions second (WithRetryConditions first c)
  /\ RetryConditions (resty (WithRetryConditions first c))
     = RetryConditions (resty c) ++ first.
Proof.
  destruct c as [[host hdr user tok cks n wt mwt conds hc pu] hu m chain].
  unfold WithRetryConditions, with_resty. split; [reflexivity|].
  rewrite !fold_AddRetryCondition; simpl.
  rewrite app_assoc. split; reflexivity.
Qed.

(** X12. [WithCookie] adds a cookie and replaces none: after a list of
    [WithCookie] options the Client holds the cookies it had, followed by
    one cookie for each option, in the order of the options, each with the
    name and value given and a max age of 3600, also when names repeat. *)
Theorem cookies_accumulate c (pairs : list (string * string)) :
  ClientCookies
    (resty (fold_left (fun client option => option client)
              (map (fun p => WithCookie (fst p) (snd p)) pairs) c))
  = ClientCookies (resty c)
    ++ map (fun p => mkCookie (fst p) (snd p) 3600 "") pairs.
Proof.
  revert c. induction pairs as [|[name value] pairs IH]; intros c; simpl.
  - rewrite app_nil_r. reflexivity.
  - rewrite IH. unfold WithCookie, with_resty, SetCookie; simpl.
    rewrite <- app_assoc. reflexivity.
Qed.

End MoreConfigurationProperties.

(** * The package on the sample platform *)

Import Sample.

(** The two cases of the package's test of [requestID]. *)
Example requestID_present :
  requestID (context_WithValue context_Background id_key (Some (any_string "42")))
  = Returns "42".
Proof. reflexivity. Qed.

Example requestID_absent : requestID context_Background = Returns "".
Proof. reflexivity. Qed.

(** [path.Join] and [Hostname] on the inputs of the alias. *)
Example path_Join_host_path :
  path_Join ["host.example"; "/path"] = "host.example/path"
  /\ path_Join ["host.example"; "../a/./b//c/.."] = "a/b"
  /\ path_Join ["host.example"; ""] = "host.example"
  /\ path_Join [""; "/path"] = "/path".
Proof. repeat split; reflexivity. Qed.

Example Hostname_port :
  Hostname (mkURL "http" "host.example:8080" "") = "host.example"
  /\ Hostname (mkURL "http" "[::1]:80" "") = "::1".
Proof. split; reflexivity. Qed.

Example Sprintf_d_examples :
  Sprintf_d 200 = "200" /\ Sprintf_d 0 = "0" /\ Sprintf_d (-7) = "-7".
Proof. repeat split; reflexivity. Qed.

(** The test of the Response: status 200, body OK, header Testheader,
    cookie testCookie. *)
Example response_round_trip :
  match Get with_host "/" start with
  | Returns ((Some target, None), _, _) =>
      StatusCode target = 200%Z
      /\ Body target = [Byte.x4f; Byte.x4b]
      /\ Header_Get (Header target) "Testheader" = "test"
      /\ Header_Get (Header target) "testheader" = "test"
      /\ hd_error (Cookies target)
         = Some (mkCookie "testCookie" "test" 0 "testCookie=test")
      /\ Value <$> Cookie target "testCookie" = Some "test"
      /\ Cookie target "other" = None
  | _ => False
  end.
Proof. vm_compute. repeat split; reflexivity. Qed.

(** Two tracing callbacks: the one registered last is entered first and
    left last. *)
Example callback_order :
  match Get (NewRequest (client [WithChainCallback (tracing "a");
                                  WithTimeout Second;
                                  WithChainCallback (tracing "b")]))
          "http://host.example/x" start with
  | Returns (_, st) =>
      log (world st)
      = ["enter b"; "enter a"; "GET http://host.example/x"; "leave a"; "leave b"]
  | Panics _ => False
  end.
Proof. vm_compute. reflexivity. Qed.

(** A successful call is reported with its time and status. *)
Example success_reported :
  match Get with_sink "http://host.example/x" start with
  | Returns ((Some _, None), [task], _) =>
      task [] = [call_PushToSeries "api.response_time"
                   (Duration_Seconds (21 * Millisecond)%Z);
                 call_IncrCounter "api.status.200";
                 call_IncrCounterWithAttrs "api.total" {["status" := "200"]}]
  | _ => False
  end.
Proof. vm_compute. reflexivity. Qed.

(** A failed call is tried once more by the retry runner of the sample. *)
Example retried_once :
  match Get (NewRequest (client [WithLinearBackoff 3 Millisecond])) "" start with
  | Returns ((Some resp, Some _), _, st) =>
      StatusCode resp = 0%Z
      /\ log (world st) = ["GET failed"; "GET failed"]
  | _ => False
  end.
Proof. vm_compute. split; reflexivity. Qed.

(** A call that fails in the transport still has a Response, with status 0:
    it is reported with its time, the error counter and the total, and
    without a status. *)
Example failed_call_reported :
  match Get with_sink "" start with
  | Returns ((Some resp, Some _), [task], _) =>
      StatusCode resp = 0%Z
      /\ task [] = [call_PushToSeries "api.response_time"
                      (Duration_Seconds Millisecond);
                    call_IncrCounter "api.errors";
                    call_IncrCounterWithAttrs "api.total" ∅]
  | _ => False
  end.
Proof. vm_compute. split; reflexivity. Qed.

(** A request with an id in its context reaches the wrapped round tripper
    with the header. *)
Example request_id_header_sent :
  RoundTrip echo
    (request_with (context_WithValue context_Background id_key
                     (Some (any_string "42"))))
    (mkWorld 0%Z [])
  = Returns ((Some (mkHttpResponse 200 ∅ []), None), mkWorld 0%Z ["42"]).
Proof. vm_compute. reflexivity. Qed.

(** ** Witnesses *)

Lemma callback_chain_nesting_witness :
  exists chain,
    callbackChain (client [WithChainCallback (tracing "a");
                           WithChainCallback (tracing "b")]) = Some chain
    /\ forall fn, chain fn = tracing "b" (tracing "a" fn).
Proof.
  destruct (callback_chain_nesting (World := World) (Sink := Sink)
              resty_New_GetClient false
              [opt_WithChainCallback (tracing "a");
               opt_WithChainCallback (tracing "b")])
    as (chain & Hchain & _ & _ & Hlast).
  exists chain. split; [exact Hchain|].
  intros fn. exact (Hlast [tracing "a"] (tracing "b") eq_refl fn).
Defined.

Lemma independent_options_commute_witness :
  client [WithTimeout Second; WithUserAgent "agent/1.0"]
  = client [WithUserAgent "agent/1.0"; WithTimeout Second].
Proof.
  exact (independent_options_commute (World := World) (Sink := Sink)
           resty_New_GetClient false [] []
           (opt_WithTimeout Second) (opt_WithUserAgent "agent/1.0") eq_refl).
Defined.

Lemma wrapped_response_reflects_witness :
  exists resp,
    wrapResponse OK_response start
      = Returns (resp, mkExecState 0%Z (mkWorld 1001000%Z []))
    /\ Header_Get (Header resp) "TESTHEADER" = "test"
    /\ ResponseTime resp = 1000%Z.
Proof.
  destruct (wrapped_response_reflects (World := World) OK_response start)
    as (resp & Hwrap & _ & _ & _ & Hget & _ & _ & _ & Htime).
  exists resp. split; [exact Hwrap|]. split.
  - rewrite (Hget "TESTHEADER" "Testheader" eq_refl eq_refl). reflexivity.
  - rewrite Htime; [reflexivity|]. vm_compute. split; discriminate.
Defined.

Lemma host_url_degrades_witness :
  hostURL (client [WithHostURL ":bad"; WithTimeout Second]) = None
  /\ metricsAlias (NewRequest (client [WithHostURL ":bad"; WithTimeout Second]))
       "GET" "/v1.0/x" = "/v1-0/x".
Proof.
  destruct (host_url_degrades (World := World) (Sink := Sink)
              resty_New_GetClient false [] [opt_WithTimeout Second] ":bad")
    as [_ Hfail].
  - repeat constructor; discriminate.
  - destruct (Hfail (errors_New "missing protocol scheme") eq_refl)
      as (Hnil & _ & Halias).
    split; [exact Hnil | exact (Halias "GET" "/v1.0/x")].
Defined.

Lemma requestID_lookup_witness :
  requestID context_Background = Returns ""
  /\ requestID (context_WithValue context_Background id_key
                  (Some (any_string "42"))) = Returns "42"
  /\ (exists reason,
        RoundTrip echo
          (request_with (context_WithValue context_Background id_key
                           (Some (any_int 42))))
          (mkWorld 0%Z []) = Panics reason).
Proof.
  split; [|split].
  - exact (proj1 (requestID_lookup (World := World) context_Background) eq_refl).
  - exact (proj1 (proj2 (requestID_lookup (World := World)
                           (context_WithValue context_Background id_key
                              (Some (any_string "42")))))
             "42" eq_refl).
  - destruct (proj2 (proj2 (requestID_lookup (World := World)
                              (context_WithValue context_Background id_key
                                 (Some (any_int 42)))))
                (any_int 42) eq_refl) as [_ Hrt].
    + intros s. discriminate.
    + exact (Hrt echo (request_with _) (mkWorld 0%Z []) eq_refl).
Defined.

(** ** Where the specification says more than the code does *)

(** C2, as stated, fails: with host [host.example] the call [GET users/]
    has the alias [GET-host-example/users], since [path.Join] cleans the
    path, and not the alias of the template, which keeps the final slash. *)
Lemma alias_template_counterexample :
  metricsAlias with_host "GET" "users/" = "GET-host-example/users"
  /\ templated_alias with_host "GET" "users/" = "GET-host-example/users/"
  /\ metricsAlias with_host "GET" "users/" <> templated_alias with_host "GET" "users/".
Proof. split; [reflexivity|]. split; [reflexivity|]. discriminate. Qed.

(** C3, as stated, fails: while the circuit is open the chain returns no
    Response and the sentinel, without running the terminal action, and
    the call is reported with the [circuit_open] counter and the total
    only, without a timing sample. *)
Lemma timing_sample_counterexample :
  match @Execute World Sink OpenCircuit.platform OpenCircuit.request
          "GET" "http://host.example/x" start with
  | Returns ((None, Some err), [task], st) =>
      err = ErrCircuitOpen
      /\ st = start
      /\ task [] = [call_IncrCounter "api.circuit_open";
                    call_IncrCounterWithAttrs "api.total" ∅]
      /\ ~ emits_timing_sample
             (metricsAlias OpenCircuit.request "GET" "http://host.example/x")
             (task [])
  | _ => False
  end.
Proof.
  vm_compute. split; [reflexivity|]. split; [reflexivity|].
  split; [reflexivity|].
  intros [value [H|[H|[]]]]; discriminate.
Qed.

(** C4, as stated, fails: the response of a wrapped round tripper that
    returns a response together with an error is not passed on; with a
    request id that is not a string nothing is delegated at all; and
    neither with a string id on a request whose header map is nil. *)
Lemma round_trip_result_counterexample :
  failing_with_response (request_with []) (mkWorld 0%Z [])
    = Returns ((Some (mkHttpResponse 503 ∅ []), Some (errors_New "bad gateway")),
               mkWorld 0%Z [])
  /\ RoundTrip failing_with_response (request_with []) (mkWorld 0%Z [])
    = Returns ((None, Some (errors_New "bad gateway")), mkWorld 0%Z [])
  /\ RoundTrip echo
       (request_with (context_WithValue context_Background id_key
                        (Some (any_int 42))))
       (mkWorld 0%Z [])
    = Panics "interface conversion: interface {} is int, not string"
  /\ RoundTrip echo
       (request_without_header
          (context_WithValue context_Background id_key
             (Some (any_string "42"))))
       (mkWorld 0%Z [])
    = Panics "assignment to entry in nil map".
Proof. repeat split; reflexivity. Qed.

(** C7, as stated, fails: two options that are not callback-registering,
    each installing a transport, leave the transport of the one applied
    last. *)
Lemma option_order_counterexample :
  registers (World := World) (Sink := Sink) (opt_WithDefaultTransport Second) = None
  /\ registers (World := World) (Sink := Sink)
       (opt_WithDefaultTransportWithProxy None) = None
  /\ client [WithDefaultTransport Second; WithDefaultTransportWithProxy None]
     <> client [WithDefaultTransportWithProxy None; WithDefaultTransport Second].
Proof.
  split; [reflexivity|]. split; [reflexivity|].
  intros Heq.
  apply (f_equal (fun c => hc_Transport (httpClient (resty c)))) in Heq.
  vm_compute in Heq. discriminate.
Qed.

(** ** The further properties on the sample platform *)

Lemma response_time_nonnegative_witness :
  exists resp err st',
    execute with_host "GET" "/" start = Returns ((Some resp, err), st')
    /\ (0 <= ResponseTime resp)%Z.
Proof.
  assert (Hexec : exists resp err st',
            execute with_host "GET" "/" start = Returns ((Some resp, err), st')).
  { eexists _, _, _. vm_compute. reflexivity. }
  destruct Hexec as (resp & err & st' & Hexec).
  exists resp, err, st'. split; [exact Hexec|].
  refine (response_time_nonnegative (World := World) (Sink := Sink)
            with_host "GET" "/" start st' resp err _ _ Hexec).
  - intros w. simpl. unfold Millisecond. lia.
  - intros rq m u w res w'. simpl. unfold network, Millisecond.
    destruct (String.eqb u ""); intros [= _ <-]; simpl; lia.
Defined.

Lemma round_trip_frame_witness :
  exists req' resp',
    failing_with_response req' (mkWorld 0%Z [])
    = Returns ((resp', Some (errors_New "bad gateway")), mkWorld 0%Z [])
    /\ req_Method req' = "GET"
    /\ req_URL req' = "http://host.example/path"
    /\ req_Context req' = []
    /\ (req_Header req' = None <-> Some (∅ : http_Header) = None)
    /\ (forall k, k <> "X-Request-Id" ->
          Header_values (req_Header req') k
          = Header_values (Some (∅ : http_Header)) k)
    /\ (None : option http_Response) = None.
Proof.
  exact (round_trip_frame failing_with_response (request_with [])
           (mkWorld 0%Z []) (mkWorld 0%Z []) None
           (Some (errors_New "bad gateway")) eq_refl).
Defined.

Lemma request_id_is_added_witness :
  (exists h' h'',
     setRequestIDHeader
       (context_WithValue context_Background id_key (Some (any_string "42")))
       (request_with
          (context_WithValue context_Background id_key (Some (any_string "42"))))
     = Returns
         (mkRequest "GET" "http://host.example/path" (Some h')
            (context_WithValue context_Background id_key
               (Some (any_string "42"))))
     /\ Header_Get h' "X-Request-ID" = "42"
     /\ setRequestIDHeader
          (context_WithValue context_Background id_key (Some (any_string "42")))
          (mkRequest "GET" "http://host.example/path" (Some h')
             (context_WithValue context_Background id_key
                (Some (any_string "42"))))
        = Returns
            (mkRequest "GET" "http://host.example/path" (Some h'')
               (context_WithValue context_Background id_key
                  (Some (any_string "42"))))
     /\ h'' !! "X-Request-Id" = Some ["42"; "42"])
  /\ setRequestIDHeader
       (context_WithValue context_Background id_key (Some (any_string "42")))
       (request_without_header
          (context_WithValue context_Background id_key (Some (any_string "42"))))
     = Panics "assignment to entry in nil map".
Proof.
  split.
  - exact (request_id_is_added
             (request_with
                (context_WithValue context_Background id_key
                   (Some (any_string "42"))))
             "42" eq_refl ltac:(discriminate)).
  - exact (request_id_is_added
             (request_without_header
                (context_WithValue context_Background id_key
                   (Some (any_string "42"))))
             "42" eq_refl ltac:(discriminate)).
Defined.

Lemma later_option_replaces_witness :
  client [WithTimeout Second; WithTimeout (2 * Second)%Z]
  = client [WithTimeout (2 * Second)%Z].
Proof.
  exact (later_option_replaces (World := World) (Sink := Sink)
           resty_New_GetClient false [] []
           (opt_WithTimeout Second) (opt_WithTimeout (2 * Second)%Z) eq_refl).
Defined.

Lemma metric_names_cut_at_alias_witness :
  exists suffix, cut_at_dot "api.errors" = ("api", suffix).
Proof.
  destruct (metric_names_cut_at_alias (World := World) (Sink := Sink)
              with_sink "GET" "" None (Some (errors_New "refused"))
              (call_IncrCounter "api.errors"))
    as (suffix & _ & Hcut & _).
  - left. reflexivity.
  - exists suffix. exact Hcut.
Defined.
